(** * MOTC news crawler: a shallow embedding of [src/main.py]

    Python [str] values are sequences of Unicode code points, so they are
    modelled as [list N]; [len], slicing, [strip] and the regular expressions
    of the source all work on code points.  A Python [dict] keeps insertion
    order and is modelled as an association list.  The external libraries
    (requests, BeautifulSoup, urllib) are collaborators gathered in the class
    [Externals]; the code of [main.py] itself is translated function by
    function. *)

From Stdlib Require Import String Ascii.
From Stdlib Require Import List NArith ZArith Bool Lia Arith.
Import ListNotations.

Set Implicit Arguments.

(** ** Python strings *)

Definition pystr := list N.

Definition pystr_of_string (s : string) : pystr :=
  map N_of_ascii (list_ascii_of_string s).

Definition str_eqb (a b : pystr) : bool :=
  if list_eq_dec N.eq_dec a b then true else false.

(** [str.isspace] on one code point; this is also the class [\s] of [re]
    for [str] patterns. *)
Definition is_space (c : N) : bool :=
  ((9 <=? c) && (c <=? 13) || (28 <=? c) && (c <=? 32) || (c =? 133)
   || (c =? 160) || (c =? 5760) || (8192 <=? c) && (c <=? 8202)
   || (c =? 8232) || (c =? 8233) || (c =? 8239) || (c =? 8287)
   || (c =? 12288))%N.

Definition non_space (c : N) : bool := negb (is_space c).

Fixpoint take_while (p : N -> bool) (s : pystr) : pystr :=
  match s with
  | c :: s' => if p c then c :: take_while p s' else []
  | [] => []
  end.

Fixpoint drop_while (p : N -> bool) (s : pystr) : pystr :=
  match s with
  | c :: s' => if p c then drop_while p s' else s
  | [] => []
  end.

(** [s.lstrip(chars)], [s.rstrip(chars)], [s.strip(chars)], the set of
    characters given as a predicate. *)
Definition lstrip_by (p : N -> bool) (s : pystr) : pystr := drop_while p s.
Definition rstrip_by (p : N -> bool) (s : pystr) : pystr :=
  rev (drop_while p (rev s)).
Definition strip_by (p : N -> bool) (s : pystr) : pystr :=
  rstrip_by p (lstrip_by p s).

Definition strip (s : pystr) : pystr := strip_by is_space s.
Definition rstrip (s : pystr) : pystr := rstrip_by is_space s.

(** [s.startswith(prefix)] *)
Fixpoint starts_with (prefix s : pystr) : bool :=
  match prefix, s with
  | [], _ => true
  | p :: prefix', c :: s' => (p =? c)%N && starts_with prefix' s'
  | _ :: _, [] => false
  end.

(** [needle in s] *)
Fixpoint contains (needle s : pystr) : bool :=
  starts_with needle s ||
  match s with
  | [] => false
  | _ :: s' => contains needle s'
  end.

(** [s.endswith(suffix)] *)
Definition ends_with (suffix s : pystr) : bool :=
  starts_with (rev suffix) (rev s).

(** [s.split(sep)] for a one-character separator: the pieces between the
    separators, at least one piece. *)
Fixpoint split_on (sep : N) (s : pystr) : list pystr :=
  match s with
  | [] => [[]]
  | c :: s' =>
      if (c =? sep)%N then [] :: split_on sep s'
      else match split_on sep s' with
           | piece :: rest => (c :: piece) :: rest
           | [] => [[c]]
           end
  end.

(** ["sep".join(pieces)] *)
Fixpoint join (sep : pystr) (pieces : list pystr) : pystr :=
  match pieces with
  | [] => []
  | [p] => p
  | p :: rest => p ++ sep ++ join sep rest
  end.

(** [str(n)] for a non-negative integer, and for any integer. *)
Definition digit_char (d : N) : N := (48 + d)%N.

Fixpoint str_of_digits (fuel : nat) (n : N) (acc : pystr) : pystr :=
  match fuel with
  | O => acc
  | S fuel' =>
      let acc' := digit_char (n mod 10) :: acc in
      if (n <? 10)%N then acc' else str_of_digits fuel' (n / 10) acc'
  end.

Definition str_of_N (n : N) : pystr := str_of_digits (S (N.to_nat (N.log2 n))) n [].

Definition str_of_Z (z : Z) : pystr :=
  if (z <? 0)%Z then 45%N :: str_of_N (Z.to_N (- z)) else str_of_N (Z.to_N z).

(** Literals of the source. *)
Definition NL : N := 10%N.
Definition SPACE : N := 32%N.
Definition UNDERSCORE : N := 95%N.

(* 發布日期： *)
Definition LABEL_DATE_COLON : pystr := [0x767C; 0x5E03; 0x65E5; 0x671F; 0xFF1A]%N.
(* 發布單位： *)
Definition LABEL_UNIT_COLON : pystr := [0x767C; 0x5E03; 0x55AE; 0x4F4D; 0xFF1A]%N.
(* 交通新聞稿 *)
Definition BANNER : pystr := [0x4EA4; 0x901A; 0x65B0; 0x805E; 0x7A3F]%N.
(* 新聞類別 *)
Definition LABEL_NEWS_TYPE : pystr := [0x65B0; 0x805E; 0x985E; 0x5225]%N.
(* 業務分類 *)
Definition LABEL_BIZ_TYPE : pystr := [0x696D; 0x52D9; 0x5206; 0x985E]%N.
(* 分類 *)
Definition LABEL_TYPE : pystr := [0x5206; 0x985E]%N.
(* 發布日期 *)
Definition LABEL_DATE : pystr := [0x767C; 0x5E03; 0x65E5; 0x671F]%N.
(* 發布單位 *)
Definition LABEL_UNIT : pystr := [0x767C; 0x5E03; 0x55AE; 0x4F4D]%N.
(* ： (fullwidth colon) *)
Definition FW_COLON : N := 0xFF1A%N.

(* 回上一頁, 回頁首, 更新日期, 瀏覽人次, 點閱次數, 分享 *)
Definition STOP_MARKERS : list pystr :=
  [ [0x56DE; 0x4E0A; 0x4E00; 0x9801]; [0x56DE; 0x9801; 0x9996];
    [0x66F4; 0x65B0; 0x65E5; 0x671F]; [0x700F; 0x89BD; 0x4EBA; 0x6B21];
    [0x9EDE; 0x95B1; 0x6B21; 0x6578]; [0x5206; 0x4EAB] ]%N.

Definition LIST_URL : pystr :=
  pystr_of_string "https://www.motc.gov.tw/ch/app/news_list?lang=ch&folderName=ch&id=14".
Definition BASE_URL : pystr := pystr_of_string "https://www.motc.gov.tw".

(** ** Python dictionaries (insertion ordered) *)

Section Dict.
Variable V : Type.

Definition pydict := list (pystr * V).

(** [d[k] = v]: an existing key keeps its position, a new key goes last. *)
Fixpoint dict_set (k : pystr) (v : V) (d : pydict) : pydict :=
  match d with
  | [] => [(k, v)]
  | (k', v') :: d' =>
      if str_eqb k' k then (k, v) :: d' else (k', v') :: dict_set k v d'
  end.

Fixpoint dict_get (k : pystr) (d : pydict) : option V :=
  match d with
  | [] => None
  | (k', v') :: d' => if str_eqb k' k then Some v' else dict_get k d'
  end.

Definition dict_mem (k : pystr) (d : pydict) : bool :=
  match dict_get k d with Some _ => true | None => false end.

Fixpoint dict_del (k : pystr) (d : pydict) : pydict :=
  match d with
  | [] => []
  | (k', v') :: d' => if str_eqb k' k then d' else (k', v') :: dict_del k d'
  end.

Definition dict_values (d : pydict) : list V := map snd d.
Definition dict_keys (d : pydict) : list pystr := map fst d.
End Dict.

(** ** [sanitize_filename] and [target_path] *)

(** The character class of the first [re.sub]: backslash, slash, colon,
    star, question mark, double quote, angle brackets and bar. *)
Definition is_forbidden (c : N) : bool :=
  existsb (N.eqb c) [92; 47; 58; 42; 63; 34; 60; 62; 124]%N.

(** [re.sub(r"\s+", " ", name)]: every maximal run of whitespace becomes one
    space; [in_run] tells that the previous character was whitespace. *)
Fixpoint collapse_spaces (in_run : bool) (s : pystr) : pystr :=
  match s with
  | [] => []
  | c :: s' =>
      if is_space c
      then (if in_run then collapse_spaces true s'
            else SPACE :: collapse_spaces true s')
      else c :: collapse_spaces false s'
  end.

Definition is_dot_or_space (c : N) : bool := ((c =? 46) || (c =? 32))%N.

Definition sanitize_filename (name : pystr) (max_len : nat) : pystr :=
  let name := map (fun c => if is_forbidden c then UNDERSCORE else c) name in
  let name := strip (collapse_spaces false name) in
  let name := strip_by is_dot_or_space name in
  if max_len <? length name then rstrip (firstn max_len name) else name.

(** [os.path.join(a, b)] of posixpath. *)
Definition os_path_join (a b : pystr) : pystr :=
  if starts_with [47%N] b then b
  else if (match a with [] => true | _ => false end) || ends_with [47%N] a
       then a ++ b
       else a ++ 47%N :: b.

Definition DOT_MD : pystr := pystr_of_string ".md".

Definition target_path (out_dir unit date title : pystr) : pystr :=
  let filename :=
    sanitize_filename (unit ++ [UNDERSCORE] ++ date ++ [UNDERSCORE] ++ title ++ DOT_MD) 180 in
  os_path_join out_dir filename.

(** ** The data model *)

Record NewsItem := mkNewsItem {
  url : pystr;
  date : pystr;
  unit : pystr;
  title : pystr
}.

(** One [<a>] element as the parser shows it: [a.get("href")] and
    [a.get_text(" ", strip=True)]. *)
Record Anchor := mkAnchor {
  a_href : option pystr;
  a_text : pystr
}.

(** The six components of [urllib.parse.urlparse]. *)
Record ParseResult := mkParseResult {
  u_scheme : pystr;
  u_netloc : pystr;
  u_path : pystr;
  u_params : pystr;
  u_query : pystr;
  u_fragment : pystr
}.

(** The collaborators outside [main.py].  The network answers a GET with
    the text of a successful response or with a failure ([None]: an
    exception of [session.get] or of [raise_for_status]) and may change
    from one request to the next; the markup parser and [urlparse],
    [parse_qs], [urlencode] and [urlunparse] are functions of their
    arguments; [urljoin] raises ValueError on some references (an href
    that opens a bracketed host it does not close);
    [time.sleep] returns or raises, by the delay it is given (ValueError
    for a negative delay or NaN, OverflowError for one too large); the
    file operations succeed or raise, by the paths they are given. *)
Class Externals := {
  Net : Type;
  session_get : Net -> pystr -> option pystr * Net;
  (* the <a> elements of BeautifulSoup(html, "lxml"), in document order *)
  soup_anchors : pystr -> list Anchor;
  (* BeautifulSoup(html, "lxml").get_text("\n", strip=True) *)
  soup_text : pystr -> pystr;
  (* urljoin(base, ref); None: it raises *)
  urljoin : pystr -> pystr -> option pystr;
  urlparse : pystr -> ParseResult;
  parse_qs : pystr -> pydict (list pystr);
  urlencode : pydict (list pystr) -> pystr;
  urlunparse : ParseResult -> pystr;
  (* the float that argparse reads for --sleep *)
  PyFloat : Type;
  (* time.sleep(secs) returns *)
  time_sleep : PyFloat -> bool;
  (* os.makedirs(path, exist_ok=True) succeeds *)
  fs_makedirs : pystr -> bool;
  (* open(path, "w") succeeds *)
  fs_can_write : pystr -> bool;
  (* f.write(content) and the close of the file, for the file at a path:
     None when they succeed, and what is left in the file when one raises *)
  fs_write : pystr -> pystr -> option pystr;
  (* os.replace(src, dst) succeeds *)
  fs_can_replace : pystr -> pystr -> bool
}.

(** ** Exceptions *)

Inductive discovery_failure :=
| EmptyFirstPage     (* the first [raise] of [discover_pagination_mode] *)
| NoCandidate.       (* its last [raise] *)

(** The exceptions of a run, told apart by where they are raised:
    [main.py] raises [RuntimeError] with three different messages; the
    others are raised by the libraries. *)
Inductive exn :=
| FetchError (url : pystr)          (* the [raise] of [fetch_html] *)
| DiscoveryError (why : discovery_failure)
| UrljoinError (ref : pystr)        (* ValueError of [urljoin] *)
| SleepError                        (* ValueError, OverflowError of [time.sleep] *)
| OSError (path : pystr).           (* an exception of a file operation *)

Inductive result (A : Type) :=
| Ok (a : A)
| Raise (e : exn).
Arguments Ok {A} a.
Arguments Raise {A} e.

(** ** Regular expressions of [parse_list_page] *)

Definition is_digit (c : N) : bool := ((48 <=? c) && (c <=? 57))%N.

(** [[0-9]{n}] at the start of [s]: the digits and the rest. *)
Fixpoint match_digits (n : nat) (s : pystr) : option (pystr * pystr) :=
  match n with
  | O => Some ([], s)
  | S n' =>
      match s with
      | c :: s' =>
          if is_digit c
          then match match_digits n' s' with
               | Some (ds, rest) => Some (c :: ds, rest)
               | None => None
               end
          else None
      | [] => None
      end
  end.

Definition match_dash (s : pystr) : option pystr :=
  match s with
  | c :: s' => if (c =? 45)%N then Some s' else None
  | [] => None
  end.

(** [([0-9]{3}-[0-9]{2}-[0-9]{2})] at the start of [s]: group 1. *)
Definition match_date (s : pystr) : option pystr :=
  match match_digits 3 s with
  | Some (y, s1) =>
      match match_dash s1 with
      | Some s2 =>
          match match_digits 2 s2 with
          | Some (m, s3) =>
              match match_dash s3 with
              | Some s4 =>
                  match match_digits 2 s4 with
                  | Some (d, _) => Some (y ++ [45%N] ++ m ++ [45%N] ++ d)
                  | None => None
                  end
              | None => None
              end
          | None => None
          end
      | None => None
      end
  | None => None
  end.

(** The date pattern tried at one position: the label, [\s*], the date.
    The date starts with a digit, so giving back whitespace taken by [\s*]
    never helps and the greedy choice is the only one to try. *)
Definition date_at (s : pystr) : option pystr :=
  if starts_with LABEL_DATE_COLON s
  then match_date (drop_while is_space (skipn (length LABEL_DATE_COLON) s))
  else None.

(** [re.search(r"發布日期：\s*([0-9]{3}-[0-9]{2}-[0-9]{2})", text)]: the
    leftmost position where the pattern matches; group 1. *)
Fixpoint search_date (text : pystr) : option pystr :=
  match date_at text with
  | Some d => Some d
  | None =>
      match text with
      | [] => None
      | _ :: text' => search_date text'
      end
  end.

(** The unit pattern tried at one position: the label, [\s*], [([^\s]+)];
    group 1 and what follows it. *)
Definition unit_at (s : pystr) : option (pystr * pystr) :=
  if starts_with LABEL_UNIT_COLON s
  then
    let r := drop_while is_space (skipn (length LABEL_UNIT_COLON) s) in
    match take_while non_space r with
    | [] => None
    | tok => Some (tok, drop_while non_space r)
    end
  else None.

(** [re.search(r"發布單位：\s*([^\s]+)", text)]: group 1. *)
Fixpoint search_unit (text : pystr) : option pystr :=
  match unit_at text with
  | Some (tok, _) => Some tok
  | None =>
      match text with
      | [] => None
      | _ :: text' => search_unit text'
      end
  end.

(** The match of [^.*?發布單位：\s*[^\s]+\s*] from the start of the text:
    what is left after it.  The lazy [.*?] grows one character at a time
    and [.] does not match a newline. *)
Fixpoint title_prefix_match (s : pystr) : option pystr :=
  match unit_at s with
  | Some (_, rest) => Some (drop_while is_space rest)
  | None =>
      match s with
      | [] => None
      | c :: s' => if (c =? NL)%N then None else title_prefix_match s'
      end
  end.

(** [re.sub(r"^.*?發布單位：\s*[^\s]+\s*", "", text)]: the pattern is
    anchored at the start, so it replaces at most one match. *)
Definition sub_title_prefix (text : pystr) : pystr :=
  match title_prefix_match text with
  | Some rest => rest
  | None => text
  end.

(** ** [parse_list_page] *)

Definition HREF_VIEW : pystr := pystr_of_string "/ch/app/news_list/view".
Definition HREF_MODULE : pystr := pystr_of_string "module=news".
Definition HREF_SERNO : pystr := pystr_of_string "serno=".
Definition HREF_ID : pystr := pystr_of_string "id=14".

(** The selector: an [a] element with an [href] attribute that contains
    each of the four substrings. *)
Definition selected (a : Anchor) : bool :=
  match a_href a with
  | Some h =>
      contains HREF_VIEW h && contains HREF_MODULE h
      && contains HREF_SERNO h && contains HREF_ID h
  | None => false
  end.

(** [x or ""] for an optional string. *)
Definition or_empty (x : option pystr) : pystr :=
  match x with Some s => s | None => [] end.

Definition is_empty (s : pystr) : bool :=
  match s with [] => true | _ => false end.

(** [uniq[it.url] = it] for every item, then [list(uniq.values())]. *)
Definition dedup_by_url (items : list NewsItem) : list NewsItem :=
  dict_values
    (fold_left (fun uniq it => dict_set (url it) it uniq) items []).

Section ListPage.
Context {E : Externals}.

(** The body of the loop over the anchors: [Ok None] is a [continue], and
    [urljoin] is called, and may raise, only for an anchor that passed
    the three tests before it. *)
Definition parse_anchor (a : Anchor) : result (option NewsItem) :=
  let text := a_text a in
  if negb (contains LABEL_DATE_COLON text) || negb (contains LABEL_UNIT_COLON text)
  then Ok None
  else
    match search_date text, search_unit text with
    | Some date, Some unit =>
        let title := strip (sub_title_prefix text) in
        if is_empty title then Ok None
        else
          let ref := strip (or_empty (a_href a)) in
          match urljoin BASE_URL ref with
          | Some url => Ok (Some (mkNewsItem url date unit title))
          | None => Raise (UrljoinError ref)
          end
    | _, _ => Ok None
    end.

(** The loop over the anchors: it ends at the first anchor that raises. *)
Fixpoint collect_items (anchors : list Anchor) : result (list NewsItem) :=
  match anchors with
  | [] => Ok []
  | a :: rest =>
      match parse_anchor a with
      | Raise e => Raise e
      | Ok None => collect_items rest
      | Ok (Some it) =>
          match collect_items rest with
          | Ok items => Ok (it :: items)
          | Raise e => Raise e
          end
      end
  end.

Definition parse_list_page (html : pystr) : result (list NewsItem) :=
  let anchors := filter selected (soup_anchors html) in
  match collect_items anchors with
  | Ok items => Ok (dedup_by_url items)
  | Raise e => Raise e
  end.
End ListPage.

(** ** [extract_main_text_block] and [parse_article_page] *)

Record Article := mkArticle {
  art_url : pystr;
  art_news_type : option pystr;
  art_biz_type : option pystr;
  art_date : option pystr;
  art_unit : option pystr;
  art_title : option pystr;
  art_body_lines : list pystr
}.

(** [[i for i, ln in enumerate(lines) if ln == x]], counting from [i]. *)
Fixpoint indices_of (x : pystr) (i : nat) (lines : list pystr) : list nat :=
  match lines with
  | [] => []
  | ln :: rest =>
      if str_eqb ln x then i :: indices_of x (S i) rest
      else indices_of x (S i) rest
  end.

(** The argument is [soup.get_text("\n", strip=True)]. *)
Definition extract_main_text_block (text : pystr) : list pystr :=
  let lines := map strip (split_on NL text) in
  let lines := filter (fun ln => negb (is_empty ln)) lines in
  let idxs := indices_of BANNER 0 lines in
  let start := last idxs 0 in
  skipn start lines.

(** [ln.split("：", 1)[-1]] *)
Fixpoint after_first (sep : N) (s : pystr) : option pystr :=
  match s with
  | [] => None
  | c :: s' => if (c =? sep)%N then Some s' else after_first sep s'
  end.

Definition split1_last (sep : N) (s : pystr) : pystr :=
  match after_first sep s with Some r => r | None => s end.

Fixpoint find_value_in (prefix : pystr) (lines : list pystr) : option pystr :=
  match lines with
  | [] => None
  | ln :: rest =>
      if starts_with prefix ln then Some (strip (split1_last FW_COLON ln))
      else find_value_in prefix rest
  end.

Definition find_value (block : list pystr) (prefix : pystr) : option pystr :=
  find_value_in prefix (firstn 80 block).

(** Python truth of an optional string, and [x or y]. *)
Definition truthy (x : option pystr) : bool :=
  match x with Some (_ :: _) => true | _ => false end.

Definition py_or (x y : option pystr) : option pystr :=
  if truthy x then x else y.

Definition py_or_str (x : option pystr) (y : pystr) : pystr :=
  match x with Some (c :: s) => c :: s | _ => y end.

Definition FIELD_LABELS : list pystr :=
  [LABEL_NEWS_TYPE; LABEL_BIZ_TYPE; LABEL_TYPE; LABEL_DATE; LABEL_UNIT].

(** [range(a, b)] *)
Definition py_range (a b : nat) : list nat := seq a (b - a).

(** The test that makes the inner loop [continue] on a field line. *)
Definition is_field_line (cand : pystr) : bool :=
  contains [FW_COLON] cand && existsb (fun p => starts_with p cand) FIELD_LABELS.

(** The inner loop [for j in range(...)]: the first candidate kept. *)
Fixpoint scan_title (block : list pystr) (js : list nat) : option pystr :=
  match js with
  | [] => None
  | j :: js' =>
      let cand := strip (nth j block []) in
      if is_empty cand then scan_title block js'
      else if is_field_line cand then scan_title block js'
      else Some cand
  end.

(** The outer loop [for i, ln in enumerate(block[:120])], from index [i]:
    it ends at the first line that starts with the unit label. *)
Fixpoint title_loop (block : list pystr) (i : nat) (lines : list pystr) : option pystr :=
  match lines with
  | [] => None
  | ln :: rest =>
      if starts_with LABEL_UNIT_COLON ln
      then scan_title block (py_range (i + 1) (Nat.min (i + 10) (length block)))
      else title_loop block (S i) rest
  end.

Definition find_title (block : list pystr) : option pystr :=
  title_loop block 0 (firstn 120 block).

(** [block.index(x)] when [x in block] *)
Fixpoint index_of (x : pystr) (block : list pystr) : option nat :=
  match block with
  | [] => None
  | ln :: rest =>
      if str_eqb ln x then Some 0
      else match index_of x rest with Some i => Some (S i) | None => None end
  end.

Definition body_start (block : list pystr) (title : option pystr) : list pystr :=
  match title with
  | Some (c :: t) =>
      match index_of (c :: t) block with
      | Some t_idx => skipn (t_idx + 1) block
      | None => skipn 10 block
      end
  | _ => skipn 10 block
  end.

Definition is_stop_marker (ln : pystr) : bool :=
  existsb (str_eqb ln) STOP_MARKERS.

(** The loop that copies the body up to the first stop marker. *)
Fixpoint clean_body (body_lines : list pystr) : list pystr :=
  match body_lines with
  | [] => []
  | ln :: rest => if is_stop_marker ln then [] else ln :: clean_body rest
  end.

Definition parse_article_block (block : list pystr) (url : pystr) : Article :=
  let news_type := find_value block LABEL_NEWS_TYPE in
  let biz_type := py_or (find_value block LABEL_BIZ_TYPE) (find_value block LABEL_TYPE) in
  let date := find_value block LABEL_DATE in
  let unit := find_value block LABEL_UNIT in
  let title := find_title block in
  let body_lines := body_start block title in
  mkArticle url news_type biz_type date unit title (clean_body body_lines).

Definition parse_article_page {E : Externals} (html url : pystr) : Article :=
  parse_article_block (extract_main_text_block (soup_text html)) url.

(** ** [to_markdown] *)

(* (未解析到標題) *)
Definition NO_TITLE : pystr := [0x28; 0x672A; 0x89E3; 0x6790; 0x5230; 0x6A19; 0x984C; 0x29]%N.
(* "- 發布日期：", "- 發布單位：", "- 新聞類別：", "- 業務分類：", "- 原文連結：" *)
Definition MD_DATE : pystr := [0x2D; 0x20; 0x767C; 0x5E03; 0x65E5; 0x671F; 0xFF1A]%N.
Definition MD_UNIT : pystr := [0x2D; 0x20; 0x767C; 0x5E03; 0x55AE; 0x4F4D; 0xFF1A]%N.
Definition MD_NEWS_TYPE : pystr := [0x2D; 0x20; 0x65B0; 0x805E; 0x985E; 0x5225; 0xFF1A]%N.
Definition MD_BIZ_TYPE : pystr := [0x2D; 0x20; 0x696D; 0x52D9; 0x5206; 0x985E; 0xFF1A]%N.
Definition MD_LINK : pystr := [0x2D; 0x20; 0x539F; 0x6587; 0x9023; 0x7D50; 0xFF1A]%N.

Definition to_markdown (article : Article) : pystr :=
  let title := py_or_str (art_title article) NO_TITLE in
  let md :=
    [pystr_of_string "# " ++ title; []]
    ++ [MD_DATE ++ py_or_str (art_date article) []]
    ++ [MD_UNIT ++ py_or_str (art_unit article) []]
    ++ (if truthy (art_news_type article)
        then [MD_NEWS_TYPE ++ or_empty (art_news_type article)] else [])
    ++ (if truthy (art_biz_type article)
        then [MD_BIZ_TYPE ++ or_empty (art_biz_type article)] else [])
    ++ [MD_LINK ++ art_url article; []; pystr_of_string "---"; []]
    ++ art_body_lines article
    ++ [[]] in
  join [NL] md.

(** ** Effects: the network, the output directory and exceptions *)

Inductive Mode := PageMode | OffsetMode.

(** [(mode, param_name, step, offset_one_based)] *)
Definition Scheme := (Mode * pystr * Z * bool)%type.

(** [{it.url for it in items}] and the comparison of two such sets. *)
Definition url_set (items : list NewsItem) : list pystr := map url items.

Definition str_mem (x : pystr) (l : list pystr) : bool := existsb (str_eqb x) l.

Definition set_eqb (a b : list pystr) : bool :=
  forallb (fun x => str_mem x b) a && forallb (fun x => str_mem x a) b.

Definition PAGE_PARAMS : list pystr :=
  map pystr_of_string ["page"; "pageIndex"; "pageNo"; "pageNum"; "p"; "pg"]%string.

Definition OFFSET_PARAMS : list pystr :=
  map pystr_of_string ["start"; "offset"; "from"; "begin"]%string.

Definition TMP_SUFFIX : pystr := pystr_of_string ".tmp".

Section Crawler.
Context {E : Externals}.

(** What a run can observe and change: the network, the URLs given to
    [fetch_html] so far, and the files of the output directory. *)
Record World := mkWorld {
  net : Net;
  fetch_log : list pystr;
  files : pydict pystr
}.

Definition M (A : Type) : Type := World -> result A * World.

Definition ret {A} (a : A) : M A := fun w => (Ok a, w).
Definition raise {A} (e : exn) : M A := fun w => (Raise e, w).
Definition bind {A B} (c : M A) (k : A -> M B) : M B :=
  fun w =>
    match c w with
    | (Ok a, w') => k a w'
    | (Raise e, w') => (Raise e, w')
    end.

Notation "x <- c ;; k" := (bind c (fun x => k))
  (at level 61, c at next level, right associativity).

(** The loop [for _ in range(retries)] of [fetch_html]. *)
Fixpoint fetch_attempts (retries : nat) (url : pystr) (n : Net) : option pystr * Net :=
  match retries with
  | O => (None, n)
  | S r =>
      match session_get n url with
      | (Some text, n') => (Some text, n')
      | (None, n') => fetch_attempts r url n'
      end
  end.

Definition fetch_html (url : pystr) : M pystr :=
  fun w =>
    let (r, n') := fetch_attempts 3 url (net w) in
    let w' := mkWorld n' (fetch_log w ++ [url]) (files w) in
    match r with
    | Some text => (Ok text, w')
    | None => (Raise (FetchError url), w')
    end.

Definition set_query_param (url key value : pystr) : pystr :=
  let u := urlparse url in
  let q := parse_qs (u_query u) in
  let q := dict_set key [value] q in
  let new_query := urlencode q in
  urlunparse
    (mkParseResult (u_scheme u) (u_netloc u) (u_path u) (u_params u)
       new_query (u_fragment u)).

(** [os.path.exists(path)] *)
Definition path_exists (path : pystr) (w : World) : bool :=
  dict_mem path (files w).

(** A value that a function of [main.py] returns or an exception it
    raises, inside a run. *)
Definition lift {A} (r : result A) : M A := fun w => (r, w).

(** [time.sleep(secs)] *)
Definition py_sleep (secs : PyFloat) : M Datatypes.unit :=
  fun w => if time_sleep secs then (Ok tt, w) else (Raise SleepError, w).

(** Open [path + ".tmp"] for writing, write, close, then [os.replace] it
    onto [path].  The open creates or empties the temporary file, so a
    write that raises leaves it behind, and so does a move that raises. *)
Definition atomic_write (path content : pystr) : M Datatypes.unit :=
  fun w =>
    let tmp := path ++ TMP_SUFFIX in
    if fs_can_write tmp
    then
      match fs_write tmp content with
      | Some partial =>
          (Raise (OSError tmp),
           mkWorld (net w) (fetch_log w) (dict_set tmp partial (files w)))
      | None =>
          let written := dict_set tmp content (files w) in
          if fs_can_replace tmp path
          then
            let replaced := dict_set path content (dict_del tmp written) in
            (Ok tt, mkWorld (net w) (fetch_log w) replaced)
          else (Raise (OSError path), mkWorld (net w) (fetch_log w) written)
      end
    else (Raise (OSError tmp), w).

(** *** [discover_pagination_mode] *)

(** One probe: fetch, parse, and the test [items and urls != first_urls]. *)
Definition probe (test_url : pystr) (first_urls : list pystr) : M bool :=
  html <- fetch_html test_url ;;
  items <- lift (parse_list_page html) ;;
  let urls := url_set items in
  ret (negb (match items with [] => true | _ => false end)
       && negb (set_eqb urls first_urls)).

(** The loop [for p in page_params]; [None] when it runs to its end.
    After a probe that did not succeed comes [time.sleep(sleep)]. *)
Fixpoint probe_page_params (base_url : pystr) (first_urls : list pystr)
    (sleep : PyFloat) (params : list pystr) : M (option Scheme) :=
  match params with
  | [] => ret None
  | p :: rest =>
      ok <- probe (set_query_param base_url p (pystr_of_string "2")) first_urls ;;
      if ok then ret (Some (PageMode, p, 0%Z, false))
      else
        _ <- py_sleep sleep ;;
        probe_page_params base_url first_urls sleep rest
  end.

(** The inner loop [for one_based in (False, True)] for one parameter. *)
Fixpoint probe_offset_bases (base_url : pystr) (first_urls : list pystr)
    (sleep : PyFloat) (page_size : Z) (p : pystr) (bases : list bool)
    : M (option Scheme) :=
  match bases with
  | [] => ret None
  | one_based :: rest =>
      let val := if one_based then (page_size + 1)%Z else page_size in
      ok <- probe (set_query_param base_url p (str_of_Z val)) first_urls ;;
      if ok then ret (Some (OffsetMode, p, page_size, one_based))
      else
        _ <- py_sleep sleep ;;
        probe_offset_bases base_url first_urls sleep page_size p rest
  end.

(** The loop [for p in offset_params]. *)
Fixpoint probe_offset_params (base_url : pystr) (first_urls : list pystr)
    (sleep : PyFloat) (page_size : Z) (params : list pystr) : M (option Scheme) :=
  match params with
  | [] => ret None
  | p :: rest =>
      r <- probe_offset_bases base_url first_urls sleep page_size p [false; true] ;;
      match r with
      | Some s => ret (Some s)
      | None => probe_offset_params base_url first_urls sleep page_size rest
      end
  end.

Definition discover_pagination_mode (base_url : pystr)
    (first_page_items : list NewsItem) (sleep : PyFloat) : M Scheme :=
  match first_page_items with
  | [] => raise (DiscoveryError EmptyFirstPage)
  | _ :: _ =>
      let first_urls := url_set first_page_items in
      let page_size := Z.max 1 (Z.of_nat (length first_page_items)) in
      r <- probe_page_params base_url first_urls sleep PAGE_PARAMS ;;
      match r with
      | Some s => ret s
      | None =>
          r <- probe_offset_params base_url first_urls sleep page_size OFFSET_PARAMS ;;
          match r with
          | Some s => ret s
          | None => raise (DiscoveryError NoCandidate)
          end
      end
  end.

(** *** [iter_list_pages]

    The generator is a state machine: a state is a point where it is
    suspended, and [gen_next] runs it to its next [yield] ([Some page]) or
    to its [return] ([None]). *)

Definition Page := (Z * pystr * list NewsItem)%type.

Inductive GenState :=
| GenStart
| GenFirstYielded (items1 : list NewsItem)
| GenLoopYielded (scheme : Scheme) (page_no : Z)
| GenDone.

(** The URL of page [page_no] under a scheme. *)
Definition page_url (base_url : pystr) (scheme : Scheme) (page_no : Z) : pystr :=
  let '(mode, param, step, offset_one_based) := scheme in
  match mode with
  | PageMode => set_query_param base_url param (str_of_Z page_no)
  | OffsetMode =>
      let offset := ((page_no - 1) * step)%Z in
      let offset := if offset_one_based then (offset + 1)%Z else offset in
      set_query_param base_url param (str_of_Z offset)
  end.

(** One turn of [while True] up to its [yield], entered with the previous
    [page_no]. *)
Definition loop_turn (base_url : pystr) (max_pages : Z) (scheme : Scheme)
    (page_no : Z) : M (option Page * GenState) :=
  let page_no := (page_no + 1)%Z in
  if negb (max_pages =? 0)%Z && (max_pages <? page_no)%Z
  then ret (None, GenDone)
  else
    let url := page_url base_url scheme page_no in
    html <- fetch_html url ;;
    items <- lift (parse_list_page html) ;;
    match items with
    | [] => ret (None, GenDone)
    | _ => ret (Some (page_no, url, items), GenLoopYielded scheme page_no)
    end.

(** The generator resumed in state [st].  After the [yield] of the loop
    comes [time.sleep(sleep)], the last statement of the turn, and then
    the next turn. *)
Definition gen_next (base_url : pystr) (sleep : PyFloat) (max_pages : Z)
    (st : GenState) : M (option Page * GenState) :=
  match st with
  | GenStart =>
      html1 <- fetch_html base_url ;;
      items1 <- lift (parse_list_page html1) ;;
      ret (Some (0%Z, base_url, items1), GenFirstYielded items1)
  | GenFirstYielded items1 =>
      if (max_pages =? 1)%Z then ret (None, GenDone)
      else
        scheme <- discover_pagination_mode base_url items1 sleep ;;
        loop_turn base_url max_pages scheme 0
  | GenLoopYielded scheme page_no =>
      _ <- py_sleep sleep ;;
      loop_turn base_url max_pages scheme page_no
  | GenDone => ret (None, GenDone)
  end.

(** The generator driven to its end by a consumer that takes every page:
    the pages yielded, and whether it returned or raised.  [None] when the
    fuel does not suffice. *)
Fixpoint run_gen (fuel : nat) (base_url : pystr) (sleep : PyFloat) (max_pages : Z)
    (st : GenState) (w : World) : option (list Page * result Datatypes.unit) * World :=
  match fuel with
  | O => (None, w)
  | S fuel' =>
      match gen_next base_url sleep max_pages st w with
      | (Raise e, w') => (Some ([], Raise e), w')
      | (Ok (None, _), w') => (Some ([], Ok tt), w')
      | (Ok (Some page, st'), w') =>
          match run_gen fuel' base_url sleep max_pages st' w' with
          | (Some (pages, r), w'') => (Some (page :: pages, r), w'')
          | (None, w'') => (None, w'')
          end
      end
  end.

(** *** [main] *)

Record Totals := mkTotals {
  total_saved : nat;
  total_seen : nat
}.

(** How [main] ends when it ends without an exception: at the [return]
    of the existence check, or after the last page. *)
Inductive Exit := StoppedOnExisting | ReachedEnd.

(** The statements of the [try] block for one item up to the write. *)
Definition download_item (out_dir : pystr) (item : NewsItem) : M Datatypes.unit :=
  article_html <- fetch_html (url item) ;;
  let article := parse_article_page article_html (url item) in
  let date := py_or_str (art_date article) (date item) in
  let unit := py_or_str (art_unit article) (unit item) in
  let title := py_or_str (art_title article) (title item) in
  let out_path := target_path out_dir unit date title in
  let article :=
    mkArticle (art_url article) (art_news_type article) (art_biz_type article)
      (Some date) (Some unit) (Some title) (art_body_lines article) in
  let md := to_markdown article in
  atomic_write out_path md.

(** The [try] block and its [except] for one item: the counters after
    it.  [total_saved += 1] comes before [time.sleep(args.sleep)], so the
    document counts as saved also when the sleep raises; every exception
    of the block is caught. *)
Definition try_download (out_dir : pystr) (sleep : PyFloat) (item : NewsItem)
    (t : Totals) : M Totals :=
  fun w =>
    match download_item out_dir item w with
    | (Raise _, w1) => (Ok t, w1)                    (* except Exception *)
    | (Ok _, w1) =>
        (* total_saved += 1 *)
        let t := mkTotals (S (total_saved t)) (total_seen t) in
        (* time.sleep(args.sleep) *)
        match py_sleep sleep w1 with
        | (Ok _, w2) => (Ok t, w2)
        | (Raise _, w2) => (Ok t, w2)                (* except Exception *)
        end
    end.

(** The loop over the items of one page; [true] is the [return] taken
    when the target of an item exists. *)
Fixpoint process_items (out_dir : pystr) (sleep : PyFloat) (items : list NewsItem)
    (t : Totals) : M (bool * Totals) :=
  match items with
  | [] => ret (false, t)
  | item :: rest =>
      let t := mkTotals (total_saved t) (S (total_seen t)) in
      let out_path := target_path out_dir (unit item) (date item) (title item) in
      fun w =>
        if path_exists out_path w then (Ok (true, t), w)
        else
          (t' <- try_download out_dir sleep item t ;;
           process_items out_dir sleep rest t') w
  end.

(** The loop over the pages of the generator.  [None]: the fuel did not
    suffice to reach the end of the run. *)
Fixpoint main_loop (fuel : nat) (base_url : pystr) (sleep : PyFloat) (max_pages : Z)
    (out_dir : pystr) (st : GenState) (t : Totals) : M (option (Exit * Totals)) :=
  match fuel with
  | O => ret None
  | S fuel' =>
      r <- gen_next base_url sleep max_pages st ;;
      match r with
      | (None, _) => ret (Some (ReachedEnd, t))
      | (Some (_, _, items), st') =>
          r <- process_items out_dir sleep items t ;;
          match r with
          | (true, t') => ret (Some (StoppedOnExisting, t'))
          | (false, t') => main_loop fuel' base_url sleep max_pages out_dir st' t'
          end
      end
  end.

(** [main], its arguments as [argparse] gives them: first
    [os.makedirs(args.out_dir, exist_ok=True)], outside every [try], then
    the loop over the pages. *)
Definition main (fuel : nat) (list_url out_dir : pystr) (sleep : PyFloat)
    (max_pages : Z) : M (option (Exit * Totals)) :=
  fun w =>
    if fs_makedirs out_dir
    then main_loop fuel list_url sleep max_pages out_dir GenStart (mkTotals 0 0) w
    else (Raise (OSError out_dir), w).

End Crawler.

Notation "x <- c ;; k" := (bind c (fun x => k))
  (at level 61, c at next level, right associativity).

(** ** A small test double for the collaborators

    Concrete runs need concrete collaborators.  The double serves pages
    from a table; its markup is one anchor per line, written
    [href|text], and the text of a page is the markup itself; a query
    parameter is appended as [?key=value]; a reference that begins with two
    slashes and a bracket makes [urljoin] raise; a delay is a number of
    seconds and a negative one makes [time.sleep] raise; [os.makedirs]
    fails on the empty path; every write succeeds. *)

Module Fake.

Definition BAR : N := 124%N.

Definition anchor_of_line (ln : pystr) : Anchor :=
  match after_first BAR ln with
  | Some text => mkAnchor (Some (take_while (fun c => negb (c =? BAR)%N) ln)) text
  | None => mkAnchor None ln
  end.

Definition anchors (html : pystr) : list Anchor :=
  map anchor_of_line
    (filter (fun ln => negb (is_empty ln)) (split_on NL html)).

Definition encode_pair (kv : pystr * list pystr) : pystr :=
  fst kv ++ 61%N :: join [44%N] (snd kv).

Definition externals (site : list (pystr * pystr)) : Externals :=
  {| Net := nat;
     session_get := fun n u => (dict_get u site, S n);
     soup_anchors := anchors;
     soup_text := fun html => html;
     urljoin := fun base ref =>
       if starts_with (pystr_of_string "//[") ref then None else Some (base ++ ref);
     urlparse := fun u => mkParseResult [] [] u [] [] [];
     parse_qs := fun _ => [];
     urlencode := fun q => join [38%N] (map encode_pair q);
     urlunparse := fun r => u_path r ++ 63%N :: u_query r;
     PyFloat := Z;
     time_sleep := fun secs => (0 <=? secs)%Z;
     fs_makedirs := fun path => negb (is_empty path);
     fs_can_write := fun _ => true;
     fs_write := fun _ _ => None;
     fs_can_replace := fun _ _ => true |}.

Definition world0 (site : list (pystr * pystr)) : @World (externals site) :=
  @mkWorld (externals site) 0 [] [].

Definition href (serno : string) : pystr :=
  pystr_of_string "/ch/app/news_list/view?module=news&serno=" ++ pystr_of_string serno
  ++ pystr_of_string "&id=14".

(** The text of a listing entry. *)
Definition entry_text (date unit title : string) : pystr :=
  LABEL_DATE_COLON ++ pystr_of_string date ++ [SPACE]
  ++ LABEL_UNIT_COLON ++ pystr_of_string unit ++ [SPACE] ++ pystr_of_string title.

Definition entry (serno date unit title : string) : pystr :=
  href serno ++ [BAR] ++ entry_text date unit title ++ [NL].

Definition item (serno date unit title : string) : NewsItem :=
  mkNewsItem (BASE_URL ++ href serno) (pystr_of_string date)
    (pystr_of_string unit) (pystr_of_string title).

Definition base : pystr := pystr_of_string "L".
Definition out : pystr := pystr_of_string "data".

(** The URL the double gives to [set_query_param base key value]. *)
Definition with_param (key value : string) : pystr :=
  base ++ 63%N :: pystr_of_string key ++ 61%N :: pystr_of_string value.

(** A listing of two entries whose titles differ only by a character that
    [sanitize_filename] replaces; the first article has no field lines. *)
Definition collision_listing : pystr :=
  entry "1" "113-05-01" "U1" "a/b" ++ entry "2" "113-05-01" "U1" "a_b".

Definition collision_site : list (pystr * pystr) :=
  [ (base, collision_listing);
    (BASE_URL ++ href "1", pystr_of_string "body");
    (BASE_URL ++ href "2", pystr_of_string "body") ].

(** Article texts, one line of the flattened page per list element. *)
Definition lines_text (lines : list pystr) : pystr := join [NL] lines.

Definition unit_line : pystr := LABEL_UNIT_COLON ++ pystr_of_string "X".
Definition date_line : pystr := LABEL_DATE_COLON ++ pystr_of_string "113-05-01".

(** A line that starts with the label [LABEL_TYPE] and has no fullwidth colon. *)
Definition type_note_line : pystr := LABEL_TYPE ++ pystr_of_string "abc".

(** The unit line, nine field lines, and the title as the tenth line after it. *)
Definition text_tenth_line : pystr :=
  lines_text (unit_line :: repeat date_line 9
              ++ [pystr_of_string "Title"; pystr_of_string "body"]).

Definition text_label_without_colon : pystr :=
  lines_text [unit_line; type_note_line; pystr_of_string "Real"; pystr_of_string "body"].

(** The text of the title line also occurs before the unit line. *)
Definition text_repeated_title : pystr :=
  lines_text [pystr_of_string "T"; unit_line; pystr_of_string "T"; pystr_of_string "body"].

(** A site of two pages: [page=2] repeats the first page and
    [pageIndex=2] gives the second one; no other URL answers. *)
Definition first_page_listing : pystr :=
  entry "1" "113-05-01" "U1" "T1" ++ entry "2" "113-04-30" "U2" "T2".

Definition second_page_listing : pystr :=
  entry "3" "113-04-29" "U3" "T3".

Definition first_page_items : list NewsItem :=
  [item "1" "113-05-01" "U1" "T1"; item "2" "113-04-30" "U2" "T2"].

Definition paged_site : list (pystr * pystr) :=
  [ (base, first_page_listing);
    (with_param "page" "2", first_page_listing);
    (with_param "pageIndex" "2", second_page_listing) ].


(** A site that numbers its pages from 1: [page=1] is the first page
    again, [page=2] the second page, [page=3] has no entry. *)
Definition numbered_site : list (pystr * pystr) :=
  [ (base, first_page_listing);
    (with_param "page" "1", first_page_listing);
    (with_param "page" "2", second_page_listing);
    (with_param "page" "3", []);
    (BASE_URL ++ href "1", pystr_of_string "body");
    (BASE_URL ++ href "2", pystr_of_string "body");
    (BASE_URL ++ href "3", pystr_of_string "body") ].





End Fake.

(** ** Vocabulary of the statements *)

(** The URLs of a sequence in the order of their first occurrence. *)
Fixpoint first_occurrences (seen urls : list pystr) : list pystr :=
  match urls with
  | [] => []
  | u :: rest =>
      if str_mem u seen then first_occurrences seen rest
      else u :: first_occurrences (seen ++ [u]) rest
  end.

(** The last candidate of a sequence that has a given URL. *)
Definition last_with_url (u : pystr) (items : list NewsItem) : option NewsItem :=
  find (fun it => str_eqb (url it) u) (rev items).

(** The shape [DDD-DD-DD] of a publish date. *)
Definition is_date_format (d : pystr) : bool :=
  match d with
  | [y1; y2; y3; h1; m1; m2; h2; d1; d2] =>
      forallb is_digit [y1; y2; y3; m1; m2; d1; d2] && (h1 =? 45)%N && (h2 =? 45)%N
  | _ => false
  end.

(** The title heuristic as a rule on the lines of the working block: the
    index of the first line, among the first 120, that starts with the unit
    label; then, in a window of lines after it, the first line that the rule
    does not skip, with its index. *)
Fixpoint unit_line_index (i : nat) (lines : list pystr) : option nat :=
  match lines with
  | [] => None
  | ln :: rest =>
      if starts_with LABEL_UNIT_COLON ln then Some i
      else unit_line_index (S i) rest
  end.

Fixpoint first_kept (skip : pystr -> bool) (j : nat) (lines : list pystr)
    : option (nat * pystr) :=
  match lines with
  | [] => None
  | ln :: rest =>
      if skip ln then first_kept skip (S j) rest else Some (j, ln)
  end.

Definition title_by_rule (window : nat) (skip : pystr -> bool)
    (block : list pystr) : option (nat * pystr) :=
  match unit_line_index 0 (firstn 120 block) with
  | None => None
  | Some i => first_kept skip (i + 1) (firstn window (skipn (i + 1) block))
  end.

Definition starts_with_field_label (cand : pystr) : bool :=
  existsb (fun p => starts_with p cand) FIELD_LABELS.

(** The rule in the words of the specification: the next 10 lines, skipping
    a line that is empty or starts with one of the five field labels; the
    body begins after the title line, or at line 10. *)
Definition spec_title_rule (block : list pystr) : option (nat * pystr) :=
  title_by_rule 10 (fun cand => is_empty cand || starts_with_field_label cand) block.

Definition spec_body (block : list pystr) : list pystr :=
  match spec_title_rule block with
  | Some (j, _) => skipn (j + 1) block
  | None => skipn 10 block
  end.

(** The rule the code follows: the next 9 lines, skipping a line that is
    empty or that has a fullwidth colon and starts with a field label. *)
Definition code_title_rule (block : list pystr) : option (nat * pystr) :=
  title_by_rule 9 (fun cand => is_empty cand || is_field_line cand) block.

(** A line as [extract_main_text_block] leaves it: stripped and not empty. *)
Definition clean_line (ln : pystr) : Prop := strip ln = ln /\ ln <> [].

(** Every entry of the dictionary is stored under its own URL. *)
Definition keyed_by_url (d : pydict NewsItem) : Prop :=
  forall k v, In (k, v) d -> k = url v.

(** *** Discovery as a trial over an ordered list of candidates

    A candidate is the scheme it would fix and the value its probe gives to
    the parameter. *)

Section Trial.
Context {E : Externals}.

Definition Candidate := (Scheme * pystr)%type.

Definition page_candidates : list Candidate :=
  map (fun p => ((PageMode, p, 0%Z, false), pystr_of_string "2")) PAGE_PARAMS.

Definition offset_candidates_of (page_size : Z) (p : pystr) : list Candidate :=
  [ ((OffsetMode, p, page_size, false), str_of_Z page_size);
    ((OffsetMode, p, page_size, true), str_of_Z (page_size + 1)) ].

Definition offset_candidates (page_size : Z) : list Candidate :=
  flat_map (offset_candidates_of page_size) OFFSET_PARAMS.

Definition candidates (page_size : Z) : list Candidate :=
  page_candidates ++ offset_candidates page_size.

Definition candidate_url (base_url : pystr) (c : Candidate) : pystr :=
  let '((_, p, _, _), value) := c in set_query_param base_url p value.

(** A page succeeds as a probe: it has records and their URL set is not
    that of the first page. *)
Definition page_differs (first_urls : list pystr) (items : list NewsItem) : bool :=
  negb (match items with [] => true | _ => false end)
  && negb (set_eqb (url_set items) first_urls).

(** Discovery in the words of the specification, as one loop over the
    candidates in their order: the probe of a candidate is fetched and
    parsed; the first candidate whose page differs fixes the scheme and no
    further candidate is tried; after a probe without success comes the
    pause.  [Ok None]: every candidate was tried without success. *)
Fixpoint try_candidates (base_url : pystr) (first_urls : list pystr)
    (sleep : PyFloat) (cands : list Candidate) : M (option Scheme) :=
  match cands with
  | [] => ret None
  | c :: rest =>
      html <- fetch_html (candidate_url base_url c) ;;
      items <- lift (parse_list_page html) ;;
      if page_differs first_urls items then ret (Some (fst c))
      else
        _ <- py_sleep sleep ;;
        try_candidates base_url first_urls sleep rest
  end.

(** The outcome of discovery for an outcome of the trial. *)
Definition discovery_outcome (r : result (option Scheme)) : result Scheme :=
  match r with
  | Ok (Some s) => Ok s
  | Ok None => Raise (DiscoveryError NoCandidate)
  | Raise e => Raise e
  end.

Variable resp : pystr -> option pystr.



End Trial.


(** The network answers by a fixed mapping from URLs to responses. *)
Definition fixed_mapping {E : Externals} (resp : pystr -> option pystr) : Prop :=
  forall n u, fst (session_get n u) = resp u.

(** From [w] to [w'] the URLs [us] were fetched, in this order, and no
    file was written. *)
Definition fetched_only {E : Externals} (w : World) (us : list pystr) (w' : World) : Prop :=
  fetch_log w' = fetch_log w ++ us /\ files w' = files w.

(** [pages_processed k s s']: from the point [s] of a run (the state of
    the generator, the totals, the world) the controller takes [k] pages from
    the generator and processes each to its last record without stopping,
    which leaves the run at [s']. *)
Inductive pages_processed {E : Externals} (base_url : pystr) (sleep : PyFloat)
    (max_pages : Z) (out_dir : pystr)
    : nat -> GenState * Totals * World -> GenState * Totals * World -> Prop :=
| no_page s : pages_processed base_url sleep max_pages out_dir 0 s s
| one_more_page k st t w page_no page_url items st' w1 t' w2 s' :
    gen_next base_url sleep max_pages st w
    = (Ok (Some (page_no, page_url, items), st'), w1) ->
    process_items out_dir sleep items t w1 = (Ok (false, t'), w2) ->
    pages_processed base_url sleep max_pages out_dir k (st', t', w2) s' ->
    pages_processed base_url sleep max_pages out_dir (S k) (st, t, w) s'.

(** The records of the page that answers a URL under the mapping [resp];
    none when the URL is not answered or the page does not parse. *)
Definition records_at {E : Externals} (resp : pystr -> option pystr) (u : pystr)
    : list NewsItem :=
  match resp u with
  | Some html =>
      match parse_list_page html with
      | Ok items => items
      | Raise _ => []
      end
  | None => []
  end.

(** The pages [n + 1], ..., [n + count] of a scheme as the generator yields
    them under the mapping [resp], and the URLs it requests for them. *)
Fixpoint pages_from {E : Externals} (resp : pystr -> option pystr)
    (base_url : pystr) (scheme : Scheme) (n : Z) (count : nat) : list Page :=
  match count with
  | O => []
  | S c =>
      let u := page_url base_url scheme (n + 1) in
      ((n + 1)%Z, u, records_at resp u) :: pages_from resp base_url scheme (n + 1) c
  end.

Fixpoint page_urls_from {E : Externals} (base_url : pystr) (scheme : Scheme)
    (n : Z) (count : nat) : list pystr :=
  match count with
  | O => []
  | S c => page_url base_url scheme (n + 1) :: page_urls_from base_url scheme (n + 1) c
  end.

(** The strings of an article that go into its document. *)
Definition article_strings (a : Article) : list pystr :=
  or_empty (art_title a) :: or_empty (art_date a) :: or_empty (art_unit a)
  :: or_empty (art_news_type a) :: or_empty (art_biz_type a) :: art_url a
  :: art_body_lines a.



(** * Properties *)

(** ** Strings and dictionaries *)

Lemma str_eqb_eq (a b : pystr) : str_eqb a b = true <-> a = b.
Proof.
  unfold str_eqb. destruct (list_eq_dec N.eq_dec a b); split; congruence.
Qed.

Lemma str_eqb_neq (a b : pystr) : str_eqb a b = false <-> a <> b.
Proof.
  unfold str_eqb. destruct (list_eq_dec N.eq_dec a b); split; congruence.
Qed.

Lemma str_eqb_refl (a : pystr) : str_eqb a a = true.
Proof. apply str_eqb_eq. reflexivity. Qed.

Lemma str_mem_In (x : pystr) (l : list pystr) : str_mem x l = true <-> In x l.
Proof.
  unfold str_mem. rewrite existsb_exists. split.
  - intros [y [Hy Heq]]. apply str_eqb_eq in Heq. subst. assumption.
  - intros H. exists x. split; [assumption | apply str_eqb_refl].
Qed.

Lemma str_mem_not_In (x : pystr) (l : list pystr) : str_mem x l = false <-> ~ In x l.
Proof.
  rewrite <- str_mem_In. destruct (str_mem x l); split; congruence.
Qed.

Section DictFacts.
Variable V : Type.
Implicit Types (d : pydict V) (k : pystr) (v : V).

Lemma dict_keys_set k v d :
  dict_keys (dict_set k v d) =
  if str_mem k (dict_keys d) then dict_keys d else dict_keys d ++ [k].
Proof.
  unfold dict_keys, str_mem.
  induction d as [|[k' v'] d IH]; simpl; [reflexivity|].
  destruct (str_eqb k' k) eqn:Hk.
  - apply str_eqb_eq in Hk. subst. rewrite str_eqb_refl. reflexivity.
  - assert (Hk' : str_eqb k k' = false).
    { apply str_eqb_neq. apply str_eqb_neq in Hk. congruence. }
    rewrite Hk'. simpl. rewrite IH.
    destruct (existsb (str_eqb k) (map fst d)); reflexivity.
Qed.

Lemma dict_get_set_same k v d : dict_get k (dict_set k v d) = Some v.
Proof.
  induction d as [|[k' v'] d IH]; simpl.
  - rewrite str_eqb_refl. reflexivity.
  - destruct (str_eqb k' k) eqn:Hk; simpl.
    + rewrite str_eqb_refl. reflexivity.
    + rewrite Hk. exact IH.
Qed.

Lemma dict_get_set_other k k0 v d :
  k0 <> k -> dict_get k0 (dict_set k v d) = dict_get k0 d.
Proof.
  intros Hne. induction d as [|[k' v'] d IH]; simpl.
  - assert (H : str_eqb k k0 = false) by (apply str_eqb_neq; congruence).
    rewrite H. reflexivity.
  - destruct (str_eqb k' k) eqn:Hk; simpl.
    + apply str_eqb_eq in Hk. subst k'.
      assert (H : str_eqb k k0 = false) by (apply str_eqb_neq; congruence).
      rewrite H. reflexivity.
    + destruct (str_eqb k' k0); [reflexivity | exact IH].
Qed.

Lemma dict_get_In k v d : dict_get k d = Some v -> In (k, v) d.
Proof.
  induction d as [|[k' v'] d IH]; simpl; [discriminate|].
  destruct (str_eqb k' k) eqn:Hk.
  - apply str_eqb_eq in Hk. intros [= ->]. subst. left. reflexivity.
  - intros H. right. apply IH. exact H.
Qed.

Lemma In_dict_get k v d :
  NoDup (dict_keys d) -> In (k, v) d -> dict_get k d = Some v.
Proof.
  induction d as [|[k' v'] d IH]; simpl; [contradiction|].
  intros Hnd [Heq | Hin].
  - injection Heq as -> ->. rewrite str_eqb_refl. reflexivity.
  - inversion Hnd as [|? ? Hnotin Hnd']; subst.
    destruct (str_eqb k' k) eqn:Hk.
    + apply str_eqb_eq in Hk. subst k'. exfalso. apply Hnotin.
      change (In (fst (k, v)) (map fst d)). apply in_map. exact Hin.
    + apply IH; assumption.
Qed.
End DictFacts.

(** ** URL deduplication of the listing extractor *)

Section Dedup.
Implicit Types (items : list NewsItem) (d : pydict NewsItem).

Lemma fold_set_keys items : forall d,
  dict_keys (fold_left (fun uniq it => dict_set (url it) it uniq) items d) =
  dict_keys d ++ first_occurrences (dict_keys d) (map url items).
Proof.
  induction items as [|it items IH]; intros d; simpl.
  - rewrite app_nil_r. reflexivity.
  - rewrite IH, dict_keys_set.
    destruct (str_mem (url it) (dict_keys d)); [reflexivity|].
    rewrite <- app_assoc. reflexivity.
Qed.

Lemma first_occurrences_NoDup urls : forall seen,
  NoDup seen -> NoDup (seen ++ first_occurrences seen urls).
Proof.
  induction urls as [|u urls IH]; intros seen Hnd; simpl.
  - rewrite app_nil_r. exact Hnd.
  - destruct (str_mem u seen) eqn:Hmem.
    + apply IH. exact Hnd.
    + change (u :: first_occurrences (seen ++ [u]) urls)
        with ([u] ++ first_occurrences (seen ++ [u]) urls).
      rewrite app_assoc. apply IH.
      apply NoDup_app; [exact Hnd | repeat constructor; intros [] |].
      intros x Hx [<- | []]. apply str_mem_not_In in Hmem. contradiction.
Qed.

Lemma find_app_first (A : Type) (f : A -> bool) (l1 l2 : list A) :
  find f (l1 ++ l2) = match find f l1 with Some x => Some x | None => find f l2 end.
Proof.
  induction l1 as [|x l1 IH]; simpl; [reflexivity|].
  destruct (f x); [reflexivity | exact IH].
Qed.

Lemma fold_set_get u items : forall d,
  dict_get u (fold_left (fun uniq it => dict_set (url it) it uniq) items d) =
  match last_with_url u items with
  | Some it => Some it
  | None => dict_get u d
  end.
Proof.
  unfold last_with_url.
  induction items as [|it items IH]; intros d; simpl; [reflexivity|].
  rewrite IH, find_app_first.
  destruct (find (fun it0 => str_eqb (url it0) u) (rev items)); [reflexivity|].
  simpl. destruct (str_eqb (url it) u) eqn:Hu.
  - apply str_eqb_eq in Hu. subst u. apply dict_get_set_same.
  - apply dict_get_set_other. apply str_eqb_neq in Hu. congruence.
Qed.

Lemma dict_set_keyed d it : keyed_by_url d -> keyed_by_url (dict_set (url it) it d).
Proof.
  unfold keyed_by_url. induction d as [|[k' v'] d IH]; simpl; intros Hd k v.
  - intros [[= <- <-] | []]. reflexivity.
  - destruct (str_eqb k' (url it)).
    + intros [[= <- <-] | Hin]; [reflexivity|]. apply Hd. right. exact Hin.
    + intros [Heq | Hin].
      * apply Hd. left. exact Heq.
      * apply IH; [|exact Hin]. intros k0 v0 H0. apply Hd. right. exact H0.
Qed.

Lemma fold_set_keyed items : forall d,
  keyed_by_url d ->
  keyed_by_url (fold_left (fun uniq it => dict_set (url it) it uniq) items d).
Proof.
  induction items as [|it items IH]; intros d Hd; simpl; [exact Hd|].
  apply IH. apply dict_set_keyed. exact Hd.
Qed.

Lemma dedup_by_url_urls items :
  map url (dedup_by_url items) = first_occurrences [] (map url items).
Proof.
  unfold dedup_by_url, dict_values.
  set (d := fold_left (fun uniq it => dict_set (url it) it uniq) items []).
  assert (Hk : keyed_by_url d) by (apply fold_set_keyed; intros ? ? []).
  assert (Hkeys : dict_keys d = first_occurrences [] (map url items))
    by (apply (fold_set_keys items [])).
  rewrite <- Hkeys. unfold dict_keys. rewrite map_map.
  apply map_ext_in. intros [k v] Hin. simpl. symmetry. apply Hk. exact Hin.
Qed.

Lemma dedup_by_url_last items r :
  In r (dedup_by_url items) -> last_with_url (url r) items = Some r.
Proof.
  unfold dedup_by_url, dict_values. intros Hin.
  apply in_map_iff in Hin. destruct Hin as [[k v] [Hv Hin]]. simpl in Hv. subst v.
  set (d := fold_left (fun uniq it => dict_set (url it) it uniq) items []) in *.
  assert (Hk : keyed_by_url d) by (apply fold_set_keyed; intros ? ? []).
  assert (Hnd : NoDup (dict_keys d)).
  { unfold d. rewrite fold_set_keys. apply first_occurrences_NoDup. constructor. }
  pose proof (Hk _ _ Hin) as ->.
  pose proof (@In_dict_get _ _ _ _ Hnd Hin) as Hget.
  unfold d in Hget. rewrite fold_set_get in Hget. simpl in Hget.
  destruct (last_with_url (url r) items); [exact Hget | discriminate].
Qed.

Lemma last_with_url_In u items r : last_with_url u items = Some r -> In r items.
Proof.
  unfold last_with_url. intros H. apply find_some in H. apply in_rev. apply H.
Qed.

End Dedup.

(** C6. The records of a listing page are unique by URL.  The candidates
    are the records the loop over the anchors collects; when [urljoin]
    raises on an anchor the page raises with it and gives no record.
    Otherwise the URLs of the output are the URLs of the candidates in the
    order of their first occurrence, each once; every record of the output
    is the last candidate that has its URL; and a candidate fed twice in a
    row gives one record, the later one. *)
Theorem parse_list_page_unique_by_url (E : Externals) (html : pystr) :
  match collect_items (filter selected (soup_anchors html)) with
  | Raise e => parse_list_page html = Raise e
  | Ok candidates =>
      exists out,
        parse_list_page html = Ok out
        /\ NoDup (map url out)
        /\ map url out = first_occurrences [] (map url candidates)
        /\ (forall r, In r out -> last_with_url (url r) candidates = Some r)
  end
  /\ (forall a b, url a = url b -> dedup_by_url [a; b] = [b]).
Proof.
  split.
  - unfold parse_list_page.
    destruct (collect_items (filter selected (soup_anchors html))) as [candidates|e];
      [|reflexivity].
    exists (dedup_by_url candidates). split; [reflexivity|]. repeat split.
    + rewrite dedup_by_url_urls.
      apply (first_occurrences_NoDup (map url candidates) (seen := [])). constructor.
    + apply dedup_by_url_urls.
    + intros r. apply dedup_by_url_last.
  - intros a b Hab. unfold dedup_by_url. simpl. rewrite Hab, str_eqb_refl. reflexivity.
Qed.

(** ** Stop markers *)

Lemma is_stop_marker_In (ln : pystr) : is_stop_marker ln = true <-> In ln STOP_MARKERS.
Proof. apply str_mem_In. Qed.

Lemma clean_body_no_marker (body : list pystr) :
  (forall ln, In ln body -> ~ In ln STOP_MARKERS) -> clean_body body = body.
Proof.
  induction body as [|ln body IH]; intros H; simpl; [reflexivity|].
  destruct (is_stop_marker ln) eqn:Hm.
  - exfalso. apply (H ln); [left; reflexivity | apply is_stop_marker_In; exact Hm].
  - f_equal. apply IH. intros x Hx. apply H. right. exact Hx.
Qed.

Lemma clean_body_first_marker (pre post : list pystr) (m : pystr) :
  In m STOP_MARKERS ->
  (forall ln, In ln pre -> ~ In ln STOP_MARKERS) ->
  clean_body (pre ++ m :: post) = pre.
Proof.
  intros Hm. induction pre as [|ln pre IH]; intros H; simpl.
  - apply is_stop_marker_In in Hm. rewrite Hm. reflexivity.
  - destruct (is_stop_marker ln) eqn:Hln.
    + exfalso. apply (H ln); [left; reflexivity | apply is_stop_marker_In; exact Hln].
    + f_equal. apply IH. intros x Hx. apply H. right. exact Hx.
Qed.

Lemma clean_body_has_no_marker (body : list pystr) (ln : pystr) :
  In ln (clean_body body) -> ~ In ln STOP_MARKERS.
Proof.
  induction body as [|x body IH]; simpl; [intros []|].
  destruct (is_stop_marker x) eqn:Hx; [intros []|].
  intros [<- | Hin]; [|apply IH; exact Hin].
  intros Hm. apply is_stop_marker_In in Hm. congruence.
Qed.

(** C7. The body lines of an extracted article stop before the first stop
    marker: no body line is a stop marker; when the candidate body (the lines
    after the title, or from line 10) has a stop marker, the body lines are
    exactly the lines before its first occurrence; when it has none, all its
    lines are kept. *)
Theorem body_lines_stop_at_first_marker (E : Externals) (html url : pystr) :
  let block := extract_main_text_block (soup_text html) in
  let body := body_start block (find_title block) in
  let lines := art_body_lines (parse_article_page html url) in
  (forall ln, In ln lines -> ~ In ln STOP_MARKERS)
  /\ (forall pre m post,
        body = pre ++ m :: post ->
        In m STOP_MARKERS ->
        (forall ln, In ln pre -> ~ In ln STOP_MARKERS) ->
        lines = pre)
  /\ ((forall ln, In ln body -> ~ In ln STOP_MARKERS) -> lines = body).
Proof.
  intros block body lines. unfold lines, parse_article_page, parse_article_block.
  simpl. fold block. fold body. repeat split.
  - intros ln. apply clean_body_has_no_marker.
  - intros pre m post -> Hm Hpre. apply clean_body_first_marker; assumption.
  - apply clean_body_no_marker.
Qed.

(** ** The storage path *)

(** C10. [target_path] is not injective: two triples that differ in the
    title have the same path under every output directory; and there is a
    run, from an empty output directory, in which the existence check stops
    the crawl at a record whose own document was never written (its article
    was not even fetched): the path it meets was written for the record
    before it. *)
Theorem target_path_not_injective :
  (exists u1 d1 t1 u2 d2 t2 : pystr,
      (u1, d1, t1) <> (u2, d2, t2)
      /\ forall out_dir, target_path out_dir u1 d1 t1 = target_path out_dir u2 d2 t2)
  /\ (exists (E : Externals) (w w' : World) (list_url out_dir : pystr)
             (sleep : PyFloat) (a b : NewsItem),
        files w = []
        /\ fst (gen_next list_url sleep 0 GenStart w)
           = Ok (Some (0%Z, list_url, [a; b]), GenFirstYielded [a; b])
        /\ (unit a, date a, title a) <> (unit b, date b, title b)
        /\ main 2 list_url out_dir sleep 0 w
           = (Ok (Some (StoppedOnExisting, mkTotals 1 2)), w')
        /\ ~ In (url b) (fetch_log w')
        /\ dict_keys (files w')
           = [target_path out_dir (unit b) (date b) (title b)]).
Proof.
  split.
  - exists (pystr_of_string "U1"), (pystr_of_string "113-05-01"), (pystr_of_string "a/b").
    exists (pystr_of_string "U1"), (pystr_of_string "113-05-01"), (pystr_of_string "a_b").
    split; [vm_compute; discriminate|].
    intros out_dir. unfold target_path. f_equal.
  - exists (Fake.externals Fake.collision_site), (Fake.world0 Fake.collision_site).
    eexists. exists Fake.base, Fake.out, 0%Z.
    exists (Fake.item "1" "113-05-01" "U1" "a/b"), (Fake.item "2" "113-05-01" "U1" "a_b").
    split; [reflexivity|].
    split; [vm_compute; reflexivity|].
    split; [vm_compute; discriminate|].
    split; [vm_compute; reflexivity|].
    split; [|vm_compute; reflexivity].
    vm_compute. intros [H | [H | []]]; discriminate.
Qed.

(** ** The fields of a summary record *)

Lemma match_digits_spec (n : nat) : forall s ds rest,
  match_digits n s = Some (ds, rest) ->
  length ds = n /\ forallb is_digit ds = true.
Proof.
  induction n as [|n IH]; intros s ds rest; simpl.
  - intros [= <- _]. split; reflexivity.
  - destruct s as [|c s]; [discriminate|].
    destruct (is_digit c) eqn:Hc; [|discriminate].
    destruct (match_digits n s) as [[ds' rest']|] eqn:Hm; [|discriminate].
    intros [= <- _]. destruct (IH _ _ _ Hm) as [Hlen Hall].
    simpl. rewrite Hc, Hall, Hlen. split; reflexivity.
Qed.

Lemma match_date_format (s d : pystr) :
  match_date s = Some d -> is_date_format d = true.
Proof.
  unfold match_date.
  destruct (match_digits 3 s) as [[y s1]|] eqn:Hy; [|discriminate].
  destruct (match_dash s1) as [s2|]; [|discriminate].
  destruct (match_digits 2 s2) as [[m s3]|] eqn:Hm; [|discriminate].
  destruct (match_dash s3) as [s4|]; [|discriminate].
  destruct (match_digits 2 s4) as [[dd s5]|] eqn:Hd; [|discriminate].
  intros [= <-].
  apply match_digits_spec in Hy, Hm, Hd.
  destruct Hy as [Ly Ay], Hm as [Lm Am], Hd as [Ld Ad].
  destruct y as [|y1 [|y2 [|y3 [|]]]]; try discriminate Ly.
  destruct m as [|m1 [|m2 [|]]]; try discriminate Lm.
  destruct dd as [|d1 [|d2 [|]]]; try discriminate Ld.
  simpl in *.
  repeat match goal with
         | H : _ && _ = true |- _ => apply andb_prop in H; destruct H
         end.
  repeat match goal with H : is_digit _ = true |- _ => rewrite H; clear H end.
  reflexivity.
Qed.

Lemma search_date_format (text d : pystr) :
  search_date text = Some d -> is_date_format d = true.
Proof.
  induction text as [|c text IH]; simpl.
  - unfold date_at. simpl. discriminate.
  - destruct (date_at (c :: text)) as [d'|] eqn:Hat.
    + intros [= <-]. unfold date_at in Hat.
      destruct (starts_with LABEL_DATE_COLON (c :: text)); [|discriminate].
      apply match_date_format in Hat. exact Hat.
    + exact IH.
Qed.

Lemma take_while_forallb (p : N -> bool) (s : pystr) :
  forallb p (take_while p s) = true.
Proof.
  induction s as [|c s IH]; simpl; [reflexivity|].
  destruct (p c) eqn:Hc; simpl; [rewrite Hc; exact IH | reflexivity].
Qed.

Lemma unit_at_token (s tok rest : pystr) :
  unit_at s = Some (tok, rest) -> tok <> [] /\ forallb non_space tok = true.
Proof.
  unfold unit_at.
  destruct (starts_with LABEL_UNIT_COLON s); [|discriminate].
  set (r := drop_while is_space (skipn (length LABEL_UNIT_COLON) s)).
  pose proof (take_while_forallb non_space r) as Hall.
  destruct (take_while non_space r) as [|c tok'] eqn:Htok; [discriminate|].
  intros [= <- _]. split; [discriminate | exact Hall].
Qed.

Lemma search_unit_token (text tok : pystr) :
  search_unit text = Some tok -> tok <> [] /\ forallb non_space tok = true.
Proof.
  induction text as [|c text IH]; simpl.
  - unfold unit_at. simpl. discriminate.
  - destruct (unit_at (c :: text)) as [[tok' rest]|] eqn:Hat.
    + intros [= <-]. eapply unit_at_token. exact Hat.
    + exact IH.
Qed.

Lemma collect_items_In (E : Externals) (anchors : list Anchor) :
  forall (items : list NewsItem) (r : NewsItem),
    collect_items anchors = Ok items ->
    In r items ->
    exists a, In a anchors /\ parse_anchor a = Ok (Some r).
Proof.
  induction anchors as [|a anchors IH]; intros items r; cbn [collect_items].
  - intros [= <-] [].
  - destruct (parse_anchor a) as [[it|]|e] eqn:Ha; [| |discriminate].
    + destruct (collect_items anchors) as [rest|e]; [|discriminate].
      intros [= <-] [<- | Hin].
      * exists a. split; [left; reflexivity | exact Ha].
      * destruct (IH rest r eq_refl Hin) as [a' [Hin' Ha']].
        exists a'. split; [right|]; assumption.
    + intros Hc Hin. destruct (IH items r Hc Hin) as [a' [Hin' Ha']].
      exists a'. split; [right|]; assumption.
Qed.

Lemma parse_list_page_In (E : Externals) (html : pystr) (items : list NewsItem)
    (r : NewsItem) :
  parse_list_page html = Ok items ->
  In r items ->
  exists a, In a (soup_anchors html) /\ selected a = true /\ parse_anchor a = Ok (Some r).
Proof.
  unfold parse_list_page.
  destruct (collect_items (filter selected (soup_anchors html))) as [cands|e] eqn:Hc;
    [|discriminate].
  intros [= <-] Hin.
  apply dedup_by_url_last, last_with_url_In in Hin.
  destruct (@collect_items_In E _ _ _ Hc Hin) as [a [Ha Hp]]. apply filter_In in Ha.
  exists a. tauto.
Qed.

(** C5. Every summary record of a listing page has a non-empty URL, a unit
    that is one non-empty token without whitespace, a non-empty title and a
    publish date of the shape DDD-DD-DD.  The URL is what the library's
    [urljoin] returns on the site's base URL, which is never the empty
    string. *)
Theorem list_records_well_formed (E : Externals) (html : pystr)
    (items : list NewsItem) (r : NewsItem) :
  (forall ref u, urljoin BASE_URL ref = Some u -> u <> []) ->
  parse_list_page html = Ok items ->
  In r items ->
  url r <> []
  /\ unit r <> [] /\ forallb non_space (unit r) = true
  /\ title r <> []
  /\ is_date_format (date r) = true.
Proof.
  intros Hjoin Hpage Hin.
  destruct (@parse_list_page_In E _ _ _ Hpage Hin) as [a [_ [_ Ha]]].
  unfold parse_anchor in Ha.
  destruct (negb (contains LABEL_DATE_COLON (a_text a))
            || negb (contains LABEL_UNIT_COLON (a_text a))); [discriminate|].
  destruct (search_date (a_text a)) as [d|] eqn:Hd; [|discriminate].
  destruct (search_unit (a_text a)) as [u|] eqn:Hu; [|discriminate].
  destruct (strip (sub_title_prefix (a_text a))) as [|c t] eqn:Ht; [discriminate|].
  cbn [is_empty] in Ha.
  destruct (urljoin BASE_URL (strip (or_empty (a_href a)))) as [link|] eqn:Hlink;
    [|discriminate].
  injection Ha as <-. cbn [url unit title date].
  destruct (search_unit_token _ Hu) as [Hne Htok].
  repeat split; try assumption.
  - exact (Hjoin _ _ Hlink).
  - discriminate.
  - eapply search_date_format. exact Hd.
Qed.

Lemma list_records_well_formed_witness :
  let E := Fake.externals Fake.collision_site in
  let a := Fake.item "1" "113-05-01" "U1" "a/b" in
  let b := Fake.item "2" "113-05-01" "U1" "a_b" in
  (forall ref u, @urljoin E BASE_URL ref = Some u -> u <> [])
  /\ @parse_list_page E Fake.collision_listing = Ok [a; b]
  /\ url a <> []
  /\ unit a <> [] /\ forallb non_space (unit a) = true
  /\ title a <> []
  /\ is_date_format (date a) = true.
Proof.
  intros E a b.
  assert (Hjoin : forall ref u, @urljoin E BASE_URL ref = Some u -> u <> []).
  { intros ref u. cbn [urljoin E Fake.externals].
    destruct (starts_with (pystr_of_string "//[") ref); [discriminate|].
    intros [= <-]. vm_compute. discriminate. }
  assert (Hpage : @parse_list_page E Fake.collision_listing = Ok [a; b])
    by (vm_compute; reflexivity).
  split; [exact Hjoin|]. split; [exact Hpage|].
  apply (@list_records_well_formed E Fake.collision_listing [a; b] a Hjoin Hpage).
  left. reflexivity.
Defined.

(** ** Stripping *)

Lemma drop_while_idem (p : N -> bool) (s : pystr) :
  drop_while p (drop_while p s) = drop_while p s.
Proof.
  induction s as [|c s IH]; simpl; [reflexivity|].
  destruct (p c) eqn:Hc; [exact IH|]. simpl. rewrite Hc. reflexivity.
Qed.

Lemma drop_while_head (p : N -> bool) (s t : pystr) (c : N) :
  drop_while p s = c :: t -> p c = false.
Proof.
  induction s as [|x s IH]; simpl; [discriminate|].
  destruct (p x) eqn:Hx; [exact IH|]. intros [= <- _]. exact Hx.
Qed.

Lemma drop_while_snoc (p : N -> bool) (l : pystr) (c : N) :
  p c = false -> drop_while p (l ++ [c]) = drop_while p l ++ [c].
Proof.
  intros Hc. induction l as [|x l IH]; simpl.
  - rewrite Hc. reflexivity.
  - destruct (p x); [exact IH | reflexivity].
Qed.

Lemma strip_by_idem (p : N -> bool) (s : pystr) :
  strip_by p (strip_by p s) = strip_by p s.
Proof.
  unfold strip_by, rstrip_by, lstrip_by.
  destruct (drop_while p s) as [|c t] eqn:Hs; [reflexivity|].
  pose proof (@drop_while_head p s t c Hs) as Hc.
  simpl. rewrite (@drop_while_snoc p (rev t) c Hc).
  rewrite rev_app_distr. simpl. rewrite Hc. simpl.
  rewrite rev_involutive, (@drop_while_snoc p _ c Hc), drop_while_idem.
  rewrite rev_app_distr. reflexivity.
Qed.

Lemma strip_idem (s : pystr) : strip (strip s) = strip s.
Proof. apply strip_by_idem. Qed.

Lemma skipn_all_clean (n : nat) (lines : list pystr) :
  Forall clean_line lines -> Forall clean_line (skipn n lines).
Proof.
  revert lines. induction n as [|n IH]; intros lines H; simpl; [exact H|].
  destruct lines as [|ln lines]; [constructor|].
  apply IH. inversion H. assumption.
Qed.

Lemma extract_main_text_block_clean (text : pystr) :
  Forall clean_line (extract_main_text_block text).
Proof.
  unfold extract_main_text_block. apply skipn_all_clean.
  apply Forall_forall. intros ln Hin.
  apply filter_In in Hin. destruct Hin as [Hin Hne].
  apply in_map_iff in Hin. destruct Hin as [x [<- _]].
  split; [apply strip_idem|].
  destruct (strip x); [discriminate | discriminate].
Qed.

(** ** The title and body heuristics *)

Lemma skipn_cons_nth (A : Type) (d : A) (l : list A) : forall a,
  a < length l -> skipn a l = nth a l d :: skipn (S a) l.
Proof.
  induction l as [|x l IH]; intros a Ha; simpl in Ha; [lia|].
  destruct a as [|a]; [reflexivity|].
  change (skipn a l = nth a l d :: skipn (S a) l). apply IH. lia.
Qed.

Lemma skipn_beyond (A : Type) (l : list A) (a : nat) :
  length l <= a -> skipn a l = [].
Proof.
  revert a. induction l as [|x l IH]; intros a Ha.
  - destruct a; reflexivity.
  - destruct a as [|a]; simpl in Ha; [lia|]. simpl. apply IH. lia.
Qed.

Lemma firstn_min_length (A : Type) (l : list A) : forall n,
  firstn (Nat.min n (length l)) l = firstn n l.
Proof.
  induction l as [|x l IH]; intros n; simpl.
  - rewrite Nat.min_0_r. destruct n; reflexivity.
  - destruct n as [|n]; [reflexivity|]. simpl. rewrite IH. reflexivity.
Qed.

Lemma length_skipn_sub (A : Type) (l : list A) : forall a,
  length (skipn a l) = length l - a.
Proof.
  induction l as [|x l IH]; intros a.
  - destruct a; reflexivity.
  - destruct a as [|a]; [reflexivity|]. simpl. apply IH.
Qed.

Section TitleRule.
Variable block : list pystr.
Hypothesis block_clean : Forall clean_line block.

Let skip (cand : pystr) : bool := is_empty cand || is_field_line cand.

Lemma clean_nth (a : nat) :
  a < length block -> clean_line (nth a block []).
Proof.
  intros Ha. rewrite Forall_forall in block_clean.
  apply block_clean. apply nth_In. exact Ha.
Qed.

Lemma scan_title_first_kept (n : nat) : forall a,
  scan_title block (seq a n)
  = option_map snd (first_kept skip a (firstn n (skipn a block))).
Proof.
  induction n as [|n IH]; intros a; [reflexivity|].
  simpl seq. simpl scan_title.
  destruct (Nat.lt_ge_cases a (length block)) as [Ha | Ha].
  - rewrite (@skipn_cons_nth pystr [] block a Ha). simpl firstn. simpl first_kept.
    destruct (clean_nth Ha) as [Hstrip Hne]. rewrite Hstrip.
    unfold skip at 1.
    destruct (nth a block []) as [|c ln] eqn:Hln; [congruence|].
    simpl is_empty. simpl orb.
    destruct (is_field_line (c :: ln)); [apply IH | reflexivity].
  - rewrite (@skipn_beyond pystr block a Ha). rewrite firstn_nil. simpl.
    rewrite (nth_overflow block [] Ha). simpl.
    rewrite IH, (@skipn_beyond pystr block (S a)) by lia.
    rewrite firstn_nil. reflexivity.
Qed.

Lemma title_loop_unit_index (lines : list pystr) : forall i,
  title_loop block i lines
  = match unit_line_index i lines with
    | None => None
    | Some i' => scan_title block (py_range (i' + 1) (Nat.min (i' + 10) (length block)))
    end.
Proof.
  induction lines as [|ln lines IH]; intros i;
    cbn [title_loop unit_line_index]; [reflexivity|].
  destruct (starts_with LABEL_UNIT_COLON ln); [reflexivity | apply IH].
Qed.

Lemma find_title_code_rule :
  find_title block = option_map snd (code_title_rule block).
Proof.
  unfold find_title, code_title_rule, title_by_rule.
  rewrite title_loop_unit_index.
  destruct (unit_line_index 0 (firstn 120 block)) as [i|]; [|reflexivity].
  unfold py_range. rewrite scan_title_first_kept. fold skip.
  replace (Nat.min (i + 10) (length block) - (i + 1))
    with (Nat.min 9 (length (skipn (i + 1) block)))
    by (rewrite length_skipn_sub; lia).
  rewrite firstn_min_length. reflexivity.
Qed.

Lemma first_kept_window (n : nat) : forall a j t,
  first_kept skip a (firstn n (skipn a block)) = Some (j, t) ->
  j < length block /\ nth j block [] = t.
Proof.
  induction n as [|n IH]; intros a j t; [discriminate|].
  destruct (Nat.lt_ge_cases a (length block)) as [Ha | Ha].
  - rewrite (@skipn_cons_nth pystr [] block a Ha). simpl.
    destruct (skip (nth a block [])); [apply IH|].
    intros [= <- <-]. split; [exact Ha | reflexivity].
  - rewrite (@skipn_beyond pystr block a Ha), firstn_nil. discriminate.
Qed.

Lemma code_title_rule_line (j : nat) (t : pystr) :
  code_title_rule block = Some (j, t) ->
  j < length block /\ nth j block [] = t /\ t <> [].
Proof.
  unfold code_title_rule, title_by_rule.
  destruct (unit_line_index 0 (firstn 120 block)) as [i|]; [|discriminate].
  intros H. apply first_kept_window in H. destruct H as [Hj Ht].
  repeat split; try assumption.
  subst t. apply (clean_nth Hj).
Qed.

End TitleRule.

Lemma index_of_first (block : list pystr) : forall j,
  j < length block ->
  (forall k, k < j -> nth k block [] <> nth j block []) ->
  index_of (nth j block []) block = Some j.
Proof.
  induction block as [|ln block IH]; intros j Hj Hfirst; simpl in Hj; [lia|].
  destruct j as [|j]; simpl.
  - rewrite str_eqb_refl. reflexivity.
  - assert (Hne : str_eqb ln (nth j block []) = false).
    { apply str_eqb_neq. apply (Hfirst 0). lia. }
    rewrite Hne. rewrite IH; [reflexivity | lia |].
    intros k Hk. apply (Hfirst (S k)). lia.
Qed.

Lemma unit_line_index_none (lines : list pystr) : forall i,
  (forall ln, In ln lines -> starts_with LABEL_UNIT_COLON ln = false) ->
  unit_line_index i lines = None.
Proof.
  induction lines as [|ln lines IH]; intros i H; cbn [unit_line_index]; [reflexivity|].
  rewrite (H ln) by (left; reflexivity).
  apply IH. intros x Hx. apply H. right. exact Hx.
Qed.

(** C8, as the code has it.  The title is the first line, among the 9 lines
    after the first of the first 120 lines that starts with the unit label
    and its colon, that is not a field line (a line with a fullwidth colon
    that starts with one of the five field labels); it is unset when no line
    of the first 120 starts with that label.  Without a title the body,
    before its truncation, begins at index 10 of the block; with a title
    whose text does not occur earlier in the block, it begins right after
    the title line. *)
Theorem title_and_body_heuristic (E : Externals) (html url : pystr) :
  let block := extract_main_text_block (soup_text html) in
  let art := parse_article_page html url in
  art_title art = option_map snd (code_title_rule block)
  /\ ((forall ln, In ln (firstn 120 block) -> starts_with LABEL_UNIT_COLON ln = false) ->
      art_title art = None)
  /\ art_body_lines art = clean_body (body_start block (art_title art))
  /\ match code_title_rule block with
     | None => body_start block (art_title art) = skipn 10 block
     | Some (j, t) =>
         (forall k, k < j -> nth k block [] <> t) ->
         body_start block (art_title art) = skipn (j + 1) block
     end.
Proof.
  intros block art.
  pose proof (extract_main_text_block_clean (soup_text html)) as Hclean.
  fold block in Hclean.
  assert (Htitle : art_title art = option_map snd (code_title_rule block)).
  { unfold art, parse_article_page, parse_article_block. cbn [art_title].
    fold block. apply find_title_code_rule. exact Hclean. }
  split; [exact Htitle|]. split; [|split; [reflexivity|]].
  - intros Hnone. rewrite Htitle. unfold code_title_rule, title_by_rule.
    rewrite (@unit_line_index_none _ 0 Hnone). reflexivity.
  - rewrite Htitle.
    destruct (code_title_rule block) as [[j t]|] eqn:Hrule; [|reflexivity].
    intros Hfirst. cbn [option_map snd].
    destruct (@code_title_rule_line block Hclean j t Hrule) as [Hj [Hnth Hne]].
    unfold body_start. destruct t as [|c t]; [congruence|].
    rewrite <- Hnth in *.
    rewrite (@index_of_first block j Hj Hfirst). reflexivity.
Qed.

(** C8 as it is written fails on three article texts: the title on the tenth
    line after the unit line is not found; a line that starts with a field
    label and has no fullwidth colon is taken as the title; and when the text
    of the title line also occurs earlier, the body begins after that earlier
    line. *)
Lemma title_heuristic_counterexample :
  let E := Fake.externals [] in
  let block1 := extract_main_text_block Fake.text_tenth_line in
  let block2 := extract_main_text_block Fake.text_label_without_colon in
  let block3 := extract_main_text_block Fake.text_repeated_title in
  (option_map snd (spec_title_rule block1) = Some (pystr_of_string "Title")
   /\ art_title (@parse_article_page E Fake.text_tenth_line []) = None)
  /\ (option_map snd (spec_title_rule block2) = Some (pystr_of_string "Real")
      /\ art_title (@parse_article_page E Fake.text_label_without_colon [])
         = Some Fake.type_note_line)
  /\ (spec_body block3 = [pystr_of_string "body"]
      /\ body_start block3 (art_title (@parse_article_page E Fake.text_repeated_title []))
         = [Fake.unit_line; pystr_of_string "T"; pystr_of_string "body"]).
Proof.
  vm_compute. repeat split.
Qed.

(** ** Fetching and probing *)

Section Discovery.
Context {E : Externals}.

Lemma fetched_only_refl (w : World) : fetched_only w [] w.
Proof. split; [rewrite app_nil_r|]; reflexivity. Qed.

Lemma fetched_only_trans (w w' w'' : World) (us vs : list pystr) :
  fetched_only w us w' -> fetched_only w' vs w'' -> fetched_only w (us ++ vs) w''.
Proof.
  intros [L1 F1] [L2 F2]. split.
  - rewrite L2, L1, app_assoc. reflexivity.
  - rewrite F2, F1. reflexivity.
Qed.

Lemma fetch_html_fetched (u : pystr) (w : World) :
  fetched_only w [u] (snd (fetch_html u w)).
Proof.
  unfold fetch_html. destruct (fetch_attempts 3 u (net w)) as [[t|] n']; split; reflexivity.
Qed.

Lemma fetch_html_raises (u : pystr) (w : World) (e : exn) :
  fst (fetch_html u w) = Raise e -> e = FetchError u.
Proof.
  unfold fetch_html. destruct (fetch_attempts 3 u (net w)) as [[t|] n']; simpl;
    [discriminate | intros [= <-]; reflexivity].
Qed.

Lemma py_sleep_world (sleep : PyFloat) (w : World) : snd (py_sleep sleep w) = w.
Proof. unfold py_sleep. destruct (time_sleep sleep); reflexivity. Qed.

Lemma collect_items_raises (anchors : list Anchor) (e : exn) :
  collect_items anchors = Raise e -> exists ref, e = UrljoinError ref.
Proof.
  induction anchors as [|a anchors IH]; cbn [collect_items]; [discriminate|].
  destruct (parse_anchor a) as [[it|]|e'] eqn:Ha.
  - destruct (collect_items anchors) as [rest|e'']; [discriminate|].
    intros [= <-]. apply IH. reflexivity.
  - exact IH.
  - intros [= <-]. unfold parse_anchor in Ha.
    destruct (negb (contains LABEL_DATE_COLON (a_text a))
              || negb (contains LABEL_UNIT_COLON (a_text a))); [discriminate|].
    destruct (search_date (a_text a)); [|discriminate].
    destruct (search_unit (a_text a)); [|discriminate].
    destruct (is_empty (strip (sub_title_prefix (a_text a)))); [discriminate|].
    destruct (urljoin BASE_URL (strip (or_empty (a_href a)))); [discriminate|].
    injection Ha as <-. eexists. reflexivity.
Qed.

(** A listing page that does not parse raises the error of [urljoin]. *)
Lemma parse_list_page_raises (html : pystr) (e : exn) :
  parse_list_page html = Raise e -> exists ref, e = UrljoinError ref.
Proof.
  unfold parse_list_page.
  destruct (collect_items (filter selected (soup_anchors html))) as [items|e'] eqn:Hc;
    [discriminate|].
  intros [= <-]. exact (collect_items_raises _ Hc).
Qed.

Lemma probe_fetched (u : pystr) (first_urls : list pystr) (w : World) :
  fetched_only w [u] (snd (probe u first_urls w)).
Proof.
  unfold probe, bind, lift. pose proof (fetch_html_fetched u w) as H.
  destruct (fetch_html u w) as [[html|e] w']; cbn [snd] in *; [|exact H].
  destruct (parse_list_page html); exact H.
Qed.

(** *** The two loops of the code are one trial over the candidates *)

Variables (base_url : pystr) (first_urls : list pystr) (sleep : PyFloat).

Lemma try_candidates_app (l1 l2 : list Candidate) : forall w,
  try_candidates base_url first_urls sleep (l1 ++ l2) w
  = match try_candidates base_url first_urls sleep l1 w with
    | (Ok None, w1) => try_candidates base_url first_urls sleep l2 w1
    | (Ok (Some s), w1) => (Ok (Some s), w1)
    | (Raise e, w1) => (Raise e, w1)
    end.
Proof.
  induction l1 as [|c l1 IH]; intros w; cbn [app try_candidates]; [reflexivity|].
  unfold bind, lift, py_sleep.
  destruct (fetch_html (candidate_url base_url c) w) as [[html|e] w1]; [|reflexivity].
  destruct (parse_list_page html) as [items|e]; [|reflexivity].
  destruct (page_differs first_urls items); [reflexivity|].
  destruct (time_sleep sleep); [apply IH | reflexivity].
Qed.

Lemma probe_page_params_try (params : list pystr) : forall w,
  probe_page_params base_url first_urls sleep params w
  = try_candidates base_url first_urls sleep
      (map (fun p => ((PageMode, p, 0%Z, false), pystr_of_string "2")) params) w.
Proof.
  induction params as [|p params IH]; intros w; [reflexivity|].
  cbn [probe_page_params map try_candidates candidate_url fst].
  unfold probe, bind, lift, py_sleep, ret.
  destruct (fetch_html (set_query_param base_url p (pystr_of_string "2")) w)
    as [[html|e] w1]; [|reflexivity].
  destruct (parse_list_page html) as [items|e]; [|reflexivity].
  fold (page_differs first_urls items).
  destruct (page_differs first_urls items); [reflexivity|].
  destruct (time_sleep sleep); [apply IH | reflexivity].
Qed.

Lemma probe_offset_bases_try (page_size : Z) (p : pystr) (bases : list bool) : forall w,
  probe_offset_bases base_url first_urls sleep page_size p bases w
  = try_candidates base_url first_urls sleep
      (map (fun b : bool =>
              ((OffsetMode, p, page_size, b),
               str_of_Z (if b then (page_size + 1)%Z else page_size))) bases) w.
Proof.
  induction bases as [|b bases IH]; intros w; [reflexivity|].
  cbn [probe_offset_bases map try_candidates candidate_url fst].
  unfold probe, bind, lift, py_sleep, ret.
  destruct (fetch_html
              (set_query_param base_url p
                 (str_of_Z (if b then (page_size + 1)%Z else page_size))) w)
    as [[html|e] w1]; [|reflexivity].
  destruct (parse_list_page html) as [items|e]; [|reflexivity].
  fold (page_differs first_urls items).
  destruct (page_differs first_urls items); [reflexivity|].
  destruct (time_sleep sleep); [apply IH | reflexivity].
Qed.

Lemma probe_offset_params_try (page_size : Z) (params : list pystr) : forall w,
  probe_offset_params base_url first_urls sleep page_size params w
  = try_candidates base_url first_urls sleep
      (flat_map (offset_candidates_of page_size) params) w.
Proof.
  induction params as [|p params IH]; intros w; [reflexivity|].
  cbn [probe_offset_params flat_map]. rewrite try_candidates_app.
  unfold bind at 1. rewrite probe_offset_bases_try.
  change (map (fun b : bool =>
                 ((OffsetMode, p, page_size, b),
                  str_of_Z (if b then (page_size + 1)%Z else page_size))) [false; true])
    with (offset_candidates_of page_size p).
  destruct (try_candidates base_url first_urls sleep (offset_candidates_of page_size p) w)
    as [[[s|]|e] w1]; [reflexivity | apply IH | reflexivity].
Qed.

(** *** What a trial does, whatever the network answers *)

Lemma try_candidates_trace (cands : list Candidate) : forall w,
  exists k,
    k <= length cands
    /\ fetched_only w (firstn k (map (candidate_url base_url) cands))
         (snd (try_candidates base_url first_urls sleep cands w))
    /\ match fst (try_candidates base_url first_urls sleep cands w) with
       | Ok None => k = length cands /\ (cands <> [] -> time_sleep sleep = true)
       | Ok (Some s) =>
           exists pre c post,
             cands = pre ++ c :: post /\ s = fst c /\ k = S (length pre)
       | Raise e =>
           (exists c, In c cands /\ e = FetchError (candidate_url base_url c))
           \/ (exists ref, e = UrljoinError ref)
           \/ (e = SleepError /\ time_sleep sleep = false)
       end.
Proof.
  induction cands as [|c cands IH]; intros w; cbn [try_candidates].
  - exists 0. split; [apply Nat.le_refl|]. split; [apply fetched_only_refl|].
    cbn. split; [reflexivity | intros H; contradiction].
  - unfold bind, lift, py_sleep.
    pose proof (fetch_html_fetched (candidate_url base_url c) w) as Hf.
    pose proof (@fetch_html_raises (candidate_url base_url c) w) as Hraise.
    destruct (fetch_html (candidate_url base_url c) w) as [[html|e] w1];
      cbn [fst snd] in Hf, Hraise.
    + pose proof (@parse_list_page_raises html) as Hparse.
      destruct (parse_list_page html) as [items|e].
      * destruct (page_differs first_urls items).
        -- exists 1. split; [cbn; lia|]. split; [exact Hf|].
           cbn [fst ret]. exists [], c, cands. repeat split.
        -- destruct (time_sleep sleep) eqn:Hsleep.
           ++ destruct (IH w1) as [k [Hk [Hus Hout]]]. exists (S k).
              split; [cbn; lia|]. split; [exact (fetched_only_trans Hf Hus)|].
              destruct (fst (try_candidates base_url first_urls sleep cands w1))
                as [[s|]|e].
              ** destruct Hout as [pre [c' [post [-> [Hs Hk']]]]].
                 exists (c :: pre), c', post. repeat split; [exact Hs | cbn; lia].
              ** destruct Hout as [-> _]. split; [reflexivity | intros _; reflexivity].
              ** destruct Hout as [[c' [Hin He]] | [Href | [He Hs]]].
                 --- left. exists c'. split; [right; exact Hin | exact He].
                 --- right. left. exact Href.
                 --- rewrite Hs in Hsleep. discriminate.
           ++ exists 1. split; [cbn; lia|]. split; [exact Hf|].
              cbn [fst]. right. right. split; reflexivity.
      * exists 1. split; [cbn; lia|]. split; [exact Hf|].
        cbn [fst]. right. left. apply Hparse. reflexivity.
    + exists 1. split; [cbn; lia|]. split; [exact Hf|].
      cbn [fst]. left. exists c. split; [left; reflexivity | apply Hraise; reflexivity].
Qed.

(** *** The trial under a fixed mapping *)

Variable resp : pystr -> option pystr.
Hypothesis Hfix : fixed_mapping resp.

Lemma fetch_attempts_fixed (u : pystr) (retries : nat) : forall n,
  fst (fetch_attempts retries u n)
  = match retries with O => None | S _ => resp u end.
Proof.
  induction retries as [|r IH]; intros n; [reflexivity|].
  cbn [fetch_attempts]. pose proof (Hfix n u) as Hn.
  destruct (session_get n u) as [[t|] n']; simpl in Hn; [exact Hn|].
  rewrite IH. destruct r; [exact Hn | reflexivity].
Qed.

Lemma fetch_html_fixed (u : pystr) (w : World) :
  fst (fetch_html u w)
  = match resp u with Some t => Ok t | None => Raise (FetchError u) end.
Proof.
  unfold fetch_html. pose proof (fetch_attempts_fixed u 3 (net w)) as H.
  destruct (fetch_attempts 3 u (net w)) as [[t|] n']; simpl in H; rewrite <- H; reflexivity.
Qed.


End Discovery.

(** Discovery is the trial over the fourteen candidates. *)
Lemma discover_try (E : Externals) (base_url : pystr) (item : NewsItem)
    (items : list NewsItem) (sleep : PyFloat) (w : World) :
  let first := item :: items in
  let trial :=
    try_candidates base_url (url_set first) sleep
      (candidates (Z.max 1 (Z.of_nat (length first)))) w in
  discover_pagination_mode base_url first sleep w
  = (discovery_outcome (fst trial), snd trial).
Proof.
  cbv zeta. unfold candidates. rewrite try_candidates_app.
  unfold discover_pagination_mode. unfold bind at 1.
  rewrite probe_page_params_try. fold page_candidates.
  destruct (try_candidates base_url (url_set (item :: items)) sleep page_candidates w)
    as [[[s|]|e] w1]; [reflexivity | | reflexivity].
  unfold bind. rewrite probe_offset_params_try.
  fold (offset_candidates (Z.max 1 (Z.of_nat (length (item :: items))))).
  destruct (try_candidates base_url (url_set (item :: items)) sleep
              (offset_candidates (Z.max 1 (Z.of_nat (length (item :: items))))) w1)
    as [[[s|]|e] w2]; reflexivity.
Qed.

(** ** The trial over the candidates *)

Section TrialFacts.
Context {E : Externals}.
Variable resp : pystr -> option pystr.
Variables (base_url : pystr) (first_urls : list pystr) (sleep : PyFloat).



End TrialFacts.

(** ** Pagination discovery *)






(** ** The URL of a page *)

(** C2, as the code has it.  The URL of the page with index [n] is the base
    URL with the parameter of the scheme set, in page mode, to the decimal
    text of [n] itself and, in offset mode, to that of [(n - 1) * step],
    plus one when the scheme is one-based.  The generator requests this URL
    for every page it yields after the first: resumed after the first page
    it yields the page of index 1 under the scheme that discovery returns,
    and resumed after the page of index [m] it yields the page of index
    [m + 1] under the same scheme. *)
Theorem page_index_requests_page_number (E : Externals) (base_url : pystr) :
  (forall (p : pystr) (step : Z) (one_based : bool) (n : Z),
      page_url base_url (PageMode, p, step, one_based) n
      = set_query_param base_url p (str_of_Z n)
      /\ page_url base_url (OffsetMode, p, step, one_based) n
         = set_query_param base_url p
             (str_of_Z (if one_based then ((n - 1) * step + 1)%Z
                        else ((n - 1) * step)%Z)))
  /\ (forall (sleep : PyFloat) (max_pages : Z) (st st' : GenState) (w w' : World)
             (n : Z) (u : pystr) (found : list NewsItem),
        gen_next base_url sleep max_pages st w = (Ok (Some (n, u, found), st'), w') ->
        match st with
        | GenStart => n = 0%Z /\ u = base_url
        | GenFirstYielded items1 =>
            exists scheme,
              fst (discover_pagination_mode base_url items1 sleep w) = Ok scheme
              /\ n = 1%Z /\ u = page_url base_url scheme 1
              /\ st' = GenLoopYielded scheme 1
        | GenLoopYielded scheme m =>
            n = (m + 1)%Z /\ u = page_url base_url scheme (m + 1)
            /\ st' = GenLoopYielded scheme (m + 1)
        | GenDone => False
        end
        /\ exists log, fetch_log w' = log ++ [u]).
Proof.
  split.
  - intros p step one_based n. split; [reflexivity|].
    cbn [page_url]. destruct one_based; reflexivity.
  - assert (Hturn : forall max_pages scheme m w n u found st' w',
              loop_turn base_url max_pages scheme m w
              = (Ok (Some (n, u, found), st'), w') ->
              (n = (m + 1)%Z /\ u = page_url base_url scheme (m + 1)
               /\ st' = GenLoopYielded scheme (m + 1))
              /\ exists log, fetch_log w' = log ++ [u]).
    { intros max_pages scheme m w n u found st' w'. unfold loop_turn.
      destruct (negb (max_pages =? 0)%Z && (max_pages <? m + 1)%Z); [discriminate|].
      unfold bind, lift.
      pose proof (fetch_html_fetched (page_url base_url scheme (m + 1)) w) as [Hlog _].
      destruct (fetch_html (page_url base_url scheme (m + 1)) w) as [[html|e] w1];
        [|discriminate].
      cbn [snd] in Hlog.
      destruct (parse_list_page html) as [[|it its]|e]; try discriminate.
      intros [= <- <- <- <- <-]. split; [repeat split|].
      eexists. exact Hlog. }
    intros sleep max_pages st st' w w' n u found.
    destruct st as [|items1|scheme m|]; cbn [gen_next].
    + unfold bind, lift.
      pose proof (fetch_html_fetched base_url w) as [Hlog _].
      destruct (fetch_html base_url w) as [[html|e] w1]; [|discriminate].
      cbn [snd] in Hlog.
      destruct (parse_list_page html) as [items1|e]; [|discriminate].
      intros [= <- <- <- <- <-]. split; [split; reflexivity|].
      eexists. exact Hlog.
    + destruct (max_pages =? 1)%Z; [discriminate|]. unfold bind.
      destruct (discover_pagination_mode base_url items1 sleep w) as [[scheme|e] w1];
        [|discriminate].
      intros H. destruct (Hturn _ _ _ _ _ _ _ _ _ H) as [[Hn [Hu Hst]] Hlog].
      split; [|exact Hlog]. exists scheme. repeat split; assumption.
    + unfold bind, py_sleep. destruct (time_sleep sleep); [|discriminate].
      intros H. exact (Hturn _ _ _ _ _ _ _ _ _ H).
    + discriminate.
Qed.

(** C2 as it is written fails in page mode at every index: for the page of
    index 1 the parameter is 1, not 2.  On a site that numbers its pages
    from 1, where discovery fixes the page scheme by its probe [page=2],
    the generator resumed after the first page requests [page=1] and yields
    it with index 1. *)
Lemma page_index_successor_counterexample :
  let E := Fake.externals Fake.numbered_site in
  let w0 := Fake.world0 Fake.numbered_site in
  let scheme := (PageMode, pystr_of_string "page", 0%Z, false) in
  let turn := gen_next Fake.base 0%Z 0 (GenFirstYielded Fake.first_page_items) w0 in
  page_url Fake.base scheme 1 = Fake.with_param "page" "1"
  /\ page_url Fake.base scheme 1
     <> set_query_param Fake.base (pystr_of_string "page") (str_of_Z (1 + 1))
  /\ fst turn
     = Ok (Some (1%Z, Fake.with_param "page" "1", Fake.first_page_items),
           GenLoopYielded scheme 1)
  /\ fetch_log (snd turn) = [Fake.with_param "page" "2"; Fake.with_param "page" "1"].
Proof.
  vm_compute. repeat split. discriminate.
Qed.

(** ** The crawl controller *)

Unset Implicit Arguments.

Section Controller.
Context {E : Externals}.
Variables (base_url out_dir : pystr) (sleep : PyFloat) (max_pages : Z).

(** The [try] block of one record never raises. *)
Lemma try_download_ok (item : NewsItem) (t : Totals) (w : World) :
  exists t' w', try_download out_dir sleep item t w = (Ok t', w').
Proof.
  unfold try_download, py_sleep.
  destruct (download_item out_dir item w) as [[[]|e] w1]; [|eexists; eexists; reflexivity].
  destruct (time_sleep sleep); eexists; eexists; reflexivity.
Qed.

Lemma process_items_stops_at_existing (pre : list NewsItem) (item : NewsItem)
    (post : list NewsItem) : forall t w t2 w2,
  process_items out_dir sleep pre t w = (Ok (false, t2), w2) ->
  path_exists (target_path out_dir (unit item) (date item) (title item)) w2 = true ->
  process_items out_dir sleep (pre ++ item :: post) t w
  = (Ok (true, mkTotals (total_saved t2) (S (total_seen t2))), w2).
Proof.
  induction pre as [|x pre IH]; intros t w t2 w2 Hpre Hex.
  - cbn [process_items ret] in Hpre. injection Hpre as <- <-.
    cbn [app process_items]. rewrite Hex. reflexivity.
  - cbn [app process_items] in Hpre |- *.
    destruct (path_exists (target_path out_dir (unit x) (date x) (title x)) w);
      [discriminate Hpre|].
    unfold bind in Hpre |- *.
    destruct (try_download out_dir sleep x
                (mkTotals (total_saved t) (S (total_seen t))) w) as [[t1|e] w'];
      [apply IH; assumption | discriminate Hpre].
Qed.

Lemma main_loop_stop (fuel : nat) (st st' : GenState) (t t' : Totals) (w w1 w2 : World)
    (page : Z) (u : pystr) (items : list NewsItem) :
  gen_next base_url sleep max_pages st w = (Ok (Some (page, u, items), st'), w1) ->
  process_items out_dir sleep items t w1 = (Ok (true, t'), w2) ->
  main_loop (S fuel) base_url sleep max_pages out_dir st t w
  = (Ok (Some (StoppedOnExisting, t')), w2).
Proof.
  intros Hgen Hitems. cbn [main_loop]. unfold bind. rewrite Hgen, Hitems. reflexivity.
Qed.

Lemma main_loop_continue (fuel : nat) (st st' : GenState) (t t' : Totals) (w w1 w2 : World)
    (page : Z) (u : pystr) (items : list NewsItem) :
  gen_next base_url sleep max_pages st w = (Ok (Some (page, u, items), st'), w1) ->
  process_items out_dir sleep items t w1 = (Ok (false, t'), w2) ->
  main_loop (S fuel) base_url sleep max_pages out_dir st t w
  = main_loop fuel base_url sleep max_pages out_dir st' t' w2.
Proof.
  intros Hgen Hitems. cbn [main_loop]. unfold bind. rewrite Hgen, Hitems. reflexivity.
Qed.

Lemma main_loop_after_pages (k : nat) : forall s s',
  pages_processed base_url sleep max_pages out_dir k s s' ->
  forall fuel,
    main_loop (k + fuel) base_url sleep max_pages out_dir
      (fst (fst s)) (snd (fst s)) (snd s)
    = main_loop fuel base_url sleep max_pages out_dir
        (fst (fst s')) (snd (fst s')) (snd s').
Proof.
  intros s s' H. induction H as [s | k st t w page u items st' w1 t' w2 s' Hgen Hitems _ IH];
    intros fuel; [reflexivity|].
  cbn [fst snd plus] in IH |- *.
  rewrite (main_loop_continue (k + fuel) _ _ _ _ _ _ _ _ _ _ Hgen Hitems). apply IH.
Qed.

End Controller.

(** C1. In every run, when the controller has processed [k] pages without
    stopping and meets, on the next page, a record whose target path exists
    at that moment, [main] returns there: its final world is the world of
    that moment, so nothing is fetched and no document is written
    afterwards, whatever records follow on the page, whatever pages the
    generator would still yield, and however long the run could go on.
    This is the run of [main] once it has made its output directory; when
    [os.makedirs] raises, [main] ends with that error before it asks for a
    page. *)
Theorem run_halts_at_first_existing_target (E : Externals)
    (list_url out_dir : pystr) (sleep : PyFloat) (max_pages : Z) (w0 : World)
    (k : nat) (st st' : GenState) (t t2 : Totals) (w w1 w2 : World)
    (page_no : Z) (page_url : pystr) (pre post : list NewsItem) (item : NewsItem)
    (fuel : nat) :
  pages_processed list_url sleep max_pages out_dir k
    (GenStart, mkTotals 0 0, w0) (st, t, w) ->
  gen_next list_url sleep max_pages st w
  = (Ok (Some (page_no, page_url, pre ++ item :: post), st'), w1) ->
  process_items out_dir sleep pre t w1 = (Ok (false, t2), w2) ->
  path_exists (target_path out_dir (unit item) (date item) (title item)) w2 = true ->
  main (k + S fuel) list_url out_dir sleep max_pages w0
  = if fs_makedirs out_dir
    then (Ok (Some (StoppedOnExisting, mkTotals (total_saved t2) (S (total_seen t2)))),
          w2)
    else (Raise (OSError out_dir), w0).
Proof.
  intros Hpages Hgen Hpre Hex. unfold main.
  destruct (fs_makedirs out_dir); [|reflexivity].
  pose proof (main_loop_after_pages _ _ _ _ _ _ _ Hpages (S fuel)) as Hrun.
  cbn [fst snd] in Hrun. rewrite Hrun.
  apply (main_loop_stop _ _ _ _ fuel _ _ _ _ _ _ _ _ _ _ Hgen).
  apply process_items_stops_at_existing; assumption.
Qed.

Lemma run_halts_at_first_existing_target_witness :
  let E := Fake.externals Fake.collision_site in
  let w0 := Fake.world0 Fake.collision_site in
  let a := Fake.item "1" "113-05-01" "U1" "a/b" in
  let b := Fake.item "2" "113-05-01" "U1" "a_b" in
  let w1 := snd (gen_next Fake.base 0%Z 0 GenStart w0) in
  let w2 := snd (process_items Fake.out 0%Z [a] (mkTotals 0 0) w1) in
  path_exists (target_path Fake.out (unit b) (date b) (title b)) w2 = true
  /\ main 1 Fake.base Fake.out 0%Z 0 w0
     = (Ok (Some (StoppedOnExisting, mkTotals 1 2)), w2).
Proof.
  intros E w0 a b w1 w2.
  assert (Hex : path_exists (target_path Fake.out (unit b) (date b) (title b)) w2 = true)
    by (vm_compute; reflexivity).
  split; [exact Hex|].
  apply (@run_halts_at_first_existing_target E Fake.base Fake.out 0%Z 0 w0
           0 GenStart (GenFirstYielded [a; b]) (mkTotals 0 0) (mkTotals 1 1)
           w0 w1 w2 0%Z Fake.base [a] [] b 0).
  - constructor.
  - vm_compute. reflexivity.
  - vm_compute. reflexivity.
  - exact Hex.
Defined.

(** ** The page sequence generator *)

Section Generator.
Context {E : Externals}.
Variable base_url : pystr.


End Generator.

(** ** An empty listing page *)

Lemma collect_items_nil (E : Externals) (anchors : list Anchor) :
  collect_items anchors = Ok []
  <-> forall a, In a anchors -> parse_anchor a = Ok None.
Proof.
  induction anchors as [|a anchors IH]; cbn [collect_items].
  - split; [intros _ a [] | reflexivity].
  - destruct (parse_anchor a) as [[it|]|e] eqn:Ha.
    + split.
      * destruct (collect_items anchors); discriminate.
      * intros H. rewrite (H a (or_introl eq_refl)) in Ha. discriminate.
    + rewrite IH. split.
      * intros H b [<- | Hb]; [exact Ha | apply H; exact Hb].
      * intros H b Hb. apply H. right. exact Hb.
    + split; [discriminate|]. intros H. rewrite (H a (or_introl eq_refl)) in Ha.
      discriminate.
Qed.

Lemma dedup_by_url_nil (items : list NewsItem) :
  dedup_by_url items = [] <-> items = [].
Proof.
  split; [|intros ->; reflexivity].
  intros H. pose proof (@dedup_by_url_urls items) as Hurls. rewrite H in Hurls.
  destruct items as [|it items]; [reflexivity|]. discriminate.
Qed.

(** X1. A listing page has no record exactly when no anchor of the page that
    the selector takes gives a record: there is no such anchor, or each
    one lacks a label, a date of the expected shape, a unit or a title.
    This is the end test of the page generator.  (An anchor that passes
    these tests and whose reference [urljoin] rejects makes the page raise;
    such a page is not an empty one.) *)
Theorem parse_list_page_empty_iff (E : Externals) (html : pystr) :
  parse_list_page html = Ok []
  <-> forall a, In a (soup_anchors html) -> selected a = true ->
                parse_anchor a = Ok None.
Proof.
  unfold parse_list_page.
  transitivity (collect_items (filter selected (soup_anchors html)) = Ok []).
  - destruct (collect_items (filter selected (soup_anchors html))) as [items|e].
    + split.
      * intros [= H]. apply (proj1 (dedup_by_url_nil items)) in H. rewrite H. reflexivity.
      * intros [= ->]. reflexivity.
    + split; discriminate.
  - rewrite collect_items_nil. split.
    + intros H a Hin Hsel. apply H. apply filter_In. split; assumption.
    + intros H a Hin. apply filter_In in Hin. destruct Hin as [Hin Hsel].
      apply H; assumption.
Qed.

(** ** File names *)

Lemma In_drop_while (p : N -> bool) (s : pystr) (c : N) :
  In c (drop_while p s) -> In c s.
Proof.
  induction s as [|x s IH]; simpl; [tauto|].
  destruct (p x); [right; apply IH; assumption | tauto].
Qed.

Lemma In_rstrip_by (p : N -> bool) (s : pystr) (c : N) :
  In c (rstrip_by p s) -> In c s.
Proof.
  unfold rstrip_by. intros H. apply in_rev in H. apply In_drop_while in H.
  apply in_rev. exact H.
Qed.

Lemma In_strip_by (p : N -> bool) (s : pystr) (c : N) :
  In c (strip_by p s) -> In c s.
Proof.
  unfold strip_by, lstrip_by. intros H.
  apply In_rstrip_by in H. apply In_drop_while in H. exact H.
Qed.

Lemma In_firstn_list (A : Type) (n : nat) (l : list A) (x : A) :
  In x (firstn n l) -> In x l.
Proof.
  intros H. rewrite <- (firstn_skipn n l). apply in_or_app. left. exact H.
Qed.

Lemma drop_while_keeps (p : N -> bool) (s : pystr) (c : N) :
  In c s -> p c = false -> In c (drop_while p s).
Proof.
  intros Hin Hc. induction s as [|x s IH]; simpl; [contradiction|].
  destruct (p x) eqn:Hx.
  - destruct Hin as [-> | Hin]; [congruence | apply IH; exact Hin].
  - exact Hin.
Qed.

Lemma strip_by_keeps (p : N -> bool) (s : pystr) (c : N) :
  In c s -> p c = false -> In c (strip_by p s).
Proof.
  intros Hin Hc. unfold strip_by, rstrip_by, lstrip_by.
  apply -> in_rev. apply drop_while_keeps; [|exact Hc].
  apply -> in_rev. apply drop_while_keeps; assumption.
Qed.

Lemma length_drop_while (p : N -> bool) (s : pystr) :
  length (drop_while p s) <= length s.
Proof.
  induction s as [|x s IH]; simpl; [lia|]. destruct (p x); simpl; lia.
Qed.

Lemma length_rstrip_by (p : N -> bool) (s : pystr) :
  length (rstrip_by p s) <= length s.
Proof.
  unfold rstrip_by. rewrite length_rev.
  pose proof (length_drop_while p (rev s)) as H. rewrite length_rev in H. exact H.
Qed.

Lemma length_strip_by (p : N -> bool) (s : pystr) :
  length (strip_by p s) <= length s.
Proof.
  unfold strip_by, lstrip_by.
  pose proof (length_rstrip_by p (drop_while p s)).
  pose proof (length_drop_while p s). lia.
Qed.

Lemma rstrip_by_cons_keep (p : N -> bool) (h : N) (l : pystr) :
  p h = false -> rstrip_by p (h :: l) = h :: rstrip_by p l.
Proof.
  intros Hh. unfold rstrip_by. simpl.
  rewrite (@drop_while_snoc p (rev l) h Hh), rev_app_distr. reflexivity.
Qed.

Lemma strip_by_head (p : N -> bool) (s : pystr) (h : N) (t : pystr) :
  strip_by p s = h :: t -> p h = false.
Proof.
  unfold strip_by, lstrip_by.
  destruct (drop_while p s) as [|h0 t0] eqn:Hs; [discriminate|].
  pose proof (@drop_while_head p s t0 h0 Hs) as Hh0.
  rewrite (rstrip_by_cons_keep p h0 t0 Hh0). intros [= <- _]. exact Hh0.
Qed.

Lemma rstrip_by_last (p : N -> bool) (s : pystr) (d : N) :
  p d = false -> p (last (rstrip_by p s) d) = false.
Proof.
  intros Hd. unfold rstrip_by.
  destruct (drop_while p (rev s)) as [|h t] eqn:Hs; [exact Hd|].
  simpl rev. rewrite last_last. exact (@drop_while_head p (rev s) t h Hs).
Qed.

Lemma last_In_or_default (l : pystr) (d : N) : last l d = d \/ In (last l d) l.
Proof.
  induction l as [|x l IH]; [left; reflexivity|].
  destruct l as [|y l]; [right; left; reflexivity|].
  change (last (x :: y :: l) d) with (last (y :: l) d).
  destruct IH as [IH | IH]; [left; exact IH | right; right; exact IH].
Qed.

Lemma In_collapse_spaces (s : pystr) (c : N) : forall in_run,
  In c (collapse_spaces in_run s) -> c = SPACE \/ (In c s /\ is_space c = false).
Proof.
  induction s as [|x s IH]; intros in_run; simpl; [tauto|].
  destruct (is_space x) eqn:Hx.
  - destruct in_run; simpl; intros H.
    + destruct (IH _ H) as [-> | [Hin Hc]]; [left; reflexivity | right; tauto].
    + destruct H as [<- | H]; [left; reflexivity|].
      destruct (IH _ H) as [-> | [Hin Hc]]; [left; reflexivity | right; tauto].
  - simpl. intros [<- | H]; [right; tauto|].
    destruct (IH _ H) as [-> | [Hin Hc]]; [left; reflexivity | right; tauto].
Qed.

Lemma collapse_spaces_keeps (s : pystr) (c : N) : forall in_run,
  In c s -> is_space c = false -> In c (collapse_spaces in_run s).
Proof.
  induction s as [|x s IH]; intros in_run Hin Hc; simpl; [contradiction|].
  destruct Hin as [-> | Hin].
  - rewrite Hc. left. reflexivity.
  - destruct (is_space x); [destruct in_run; [|right] | right]; apply IH; assumption.
Qed.

Lemma length_collapse_spaces (s : pystr) : forall in_run,
  length (collapse_spaces in_run s) <= length s.
Proof.
  induction s as [|x s IH]; intros in_run; simpl; [lia|].
  destruct (is_space x); [destruct in_run|]; simpl;
    match goal with |- context [collapse_spaces ?b s] => pose proof (IH b) end; lia.
Qed.

(** The name after the three cleaning steps of [sanitize_filename], before
    the cut at [max_len]. *)
Lemma sanitize_filename_cut (name : pystr) (max_len : nat) :
  exists cleaned,
    sanitize_filename name max_len
    = (if max_len <? length cleaned then rstrip (firstn max_len cleaned) else cleaned)
    /\ length cleaned <= length name
    /\ Forall (fun c => is_forbidden c = false /\ (is_space c = true -> c = SPACE)) cleaned
    /\ (forall c, In c name -> is_forbidden c = false -> is_space c = false ->
                  is_dot_or_space c = false -> In c cleaned)
    /\ (forall h t, cleaned = h :: t -> is_dot_or_space h = false /\ is_space h = false)
    /\ is_dot_or_space (last cleaned UNDERSCORE) = false.
Proof.
  set (name1 := map (fun c => if is_forbidden c then UNDERSCORE else c) name).
  set (name2 := strip (collapse_spaces false name1)).
  exists (strip_by is_dot_or_space name2).
  assert (Hchars : forall c, In c name2 ->
            is_forbidden c = false /\ (is_space c = true -> c = SPACE)).
  { intros c Hc. apply In_strip_by in Hc. apply In_collapse_spaces in Hc.
    destruct Hc as [-> | [Hc Hsp]]; [split; [reflexivity | tauto]|].
    split; [|congruence].
    apply in_map_iff in Hc. destruct Hc as [x [<- _]].
    destruct (is_forbidden x) eqn:Hx; [reflexivity | exact Hx]. }
  assert (Hspace : forall c, In c name2 -> is_dot_or_space c = false -> is_space c = false).
  { intros c Hc Hd. destruct (is_space c) eqn:Hsp; [|reflexivity].
    destruct (Hchars c Hc) as [_ Heq]. rewrite (Heq Hsp) in Hd. discriminate. }
  split; [reflexivity|]. split; [|split; [|split; [|split]]].
  - pose proof (length_strip_by is_dot_or_space name2).
    pose proof (length_strip_by is_space (collapse_spaces false name1)).
    pose proof (length_collapse_spaces name1 false).
    unfold name2, strip in *. unfold name1 in *. rewrite length_map in *. lia.
  - apply Forall_forall. intros c Hc. apply Hchars. apply In_strip_by in Hc. exact Hc.
  - intros c Hin Hf Hsp Hd. apply strip_by_keeps; [|exact Hd].
    apply strip_by_keeps; [|exact Hsp]. apply collapse_spaces_keeps; [|exact Hsp].
    apply in_map_iff. exists c. rewrite Hf. split; [reflexivity | exact Hin].
  - intros h t Heq. pose proof (strip_by_head _ _ _ _ Heq) as Hd.
    split; [exact Hd|]. apply Hspace; [|exact Hd].
    apply (In_strip_by is_dot_or_space). rewrite Heq. left. reflexivity.
  - unfold strip_by. apply rstrip_by_last. reflexivity.
Qed.

Lemma sanitize_filename_chars (name : pystr) (max_len : nat) :
  Forall (fun c => is_forbidden c = false /\ (is_space c = true -> c = SPACE))
    (sanitize_filename name max_len).
Proof.
  destruct (sanitize_filename_cut name max_len) as [cleaned [-> [_ [Hchars _]]]].
  destruct (max_len <? length cleaned); [|exact Hchars].
  rewrite Forall_forall in *. intros c Hc. apply Hchars.
  apply In_rstrip_by in Hc. apply In_firstn_list in Hc. exact Hc.
Qed.

(** X2. A sanitized name is safe as a file name: it has none of the
    characters backslash, slash, colon, star, question mark, double quote,
    angle brackets and bar; its only whitespace is the plain space; it does
    not begin with a dot or a space; and it does not end with whitespace.
    (After a cut at [max_len] it may end with a dot.) *)
Theorem sanitize_filename_is_clean (name : pystr) (max_len : nat) :
  let out := sanitize_filename name max_len in
  Forall (fun c => is_forbidden c = false /\ (is_space c = true -> c = SPACE)) out
  /\ match out with
     | [] => True
     | c :: _ => is_dot_or_space c = false
     end
  /\ is_space (last out UNDERSCORE) = false.
Proof.
  intros out. split; [apply sanitize_filename_chars|]. unfold out. clear out.
  destruct (sanitize_filename_cut name max_len)
    as [cleaned [-> [_ [Hchars [_ [Hhead Hlast]]]]]].
  destruct (max_len <? length cleaned) eqn:Hcut.
  - split; [|apply rstrip_by_last; reflexivity].
    destruct cleaned as [|h t]; [destruct max_len; exact I|].
    destruct (Hhead h t eq_refl) as [Hd Hsp].
    destruct max_len as [|m]; [exact I|].
    cbn [firstn]. unfold rstrip. rewrite (rstrip_by_cons_keep _ _ _ Hsp). exact Hd.
  - split.
    + destruct cleaned as [|h t]; [exact I | apply (Hhead h t eq_refl)].
    + destruct (is_space (last cleaned UNDERSCORE)) eqn:Hsp; [|reflexivity].
      destruct (last_In_or_default cleaned UNDERSCORE) as [Heq | Hin].
      * rewrite Heq in Hsp. discriminate.
      * rewrite Forall_forall in Hchars. destruct (Hchars _ Hin) as [_ Himp].
        rewrite (Himp Hsp) in Hlast. discriminate.
Qed.

(** X3. A sanitized name is never longer than [max_len], nor longer than
    the name it comes from. *)
Theorem sanitize_filename_length (name : pystr) (max_len : nat) :
  length (sanitize_filename name max_len) <= Nat.min max_len (length name).
Proof.
  destruct (sanitize_filename_cut name max_len) as [cleaned [-> [Hlen _]]].
  destruct (max_len <? length cleaned) eqn:Hcut.
  - apply Nat.ltb_lt in Hcut.
    pose proof (length_rstrip_by is_space (firstn max_len cleaned)) as H.
    rewrite length_firstn in H. unfold rstrip. lia.
  - apply Nat.ltb_ge in Hcut. lia.
Qed.

(** X4. The storage path of a record names a file directly in the output
    directory: it is the directory, a slash unless the directory is empty or
    ends with one, and the sanitized file name of the record, which is one
    path component that stays in the directory: it is not empty, it has no
    slash and no backslash, and it does not begin with a dot, so it is
    neither the name [.] of the directory itself nor the name [..] of its
    parent.  No unit, date or title can make the path leave the directory
    or name the directory itself. *)
Theorem target_path_inside_out_dir (out_dir unit date title : pystr) :
  let filename :=
    sanitize_filename
      (unit ++ [UNDERSCORE] ++ date ++ [UNDERSCORE] ++ title ++ DOT_MD) 180 in
  target_path out_dir unit date title
  = out_dir
    ++ (if is_empty out_dir || ends_with [47%N] out_dir then [] else [47%N])
    ++ filename
  /\ filename <> []
  /\ Forall (fun c => c <> 47%N /\ c <> 92%N) filename
  /\ (forall rest, filename <> 46%N :: rest)
  /\ filename <> pystr_of_string "."
  /\ filename <> pystr_of_string "..".
Proof.
  cbv zeta. unfold target_path.
  set (name := unit ++ [UNDERSCORE] ++ date ++ [UNDERSCORE] ++ title ++ DOT_MD).
  pose proof (sanitize_filename_chars name 180) as Hchars.
  assert (Hhd : exists h t, sanitize_filename name 180 = h :: t
                            /\ is_dot_or_space h = false).
  { destruct (sanitize_filename_cut name 180)
      as [cleaned [-> [_ [_ [Hkeep [Hhead _]]]]]].
    assert (Hin : In UNDERSCORE cleaned).
    { apply Hkeep; try reflexivity. unfold name. apply in_or_app. right. left. reflexivity. }
    destruct cleaned as [|h t]; [contradiction|].
    destruct (Hhead h t eq_refl) as [Hd Hsp].
    destruct (180 <? length (h :: t)); [|exists h, t; split; [reflexivity | exact Hd]].
    cbn [firstn]. unfold rstrip. rewrite (rstrip_by_cons_keep _ _ _ Hsp).
    eexists. eexists. split; [reflexivity | exact Hd]. }
  destruct Hhd as [h [t [Hs Hd]]]. rewrite Hs in Hchars |- *.
  assert (Hdot : forall rest, h :: t <> 46%N :: rest).
  { intros rest [= -> _]. discriminate Hd. }
  split; [|split; [discriminate|split; [|split; [exact Hdot|split; apply Hdot]]]].
  - unfold os_path_join.
    rewrite Forall_forall in Hchars. destruct (Hchars h (or_introl eq_refl)) as [Hf _].
    assert (Hh : starts_with [47%N] (h :: t) = false).
    { cbn [starts_with]. destruct (47 =? h)%N eqn:Heq; [|reflexivity].
      apply N.eqb_eq in Heq. subst h. discriminate. }
    rewrite Hh. unfold is_empty.
    destruct (match out_dir with [] => true | _ :: _ => false end || ends_with [47%N] out_dir);
      reflexivity.
  - rewrite Forall_forall in *. intros c Hc. destruct (Hchars c Hc) as [Hf _].
    split; intros ->; discriminate.
Qed.

(** ** The text block of an article *)

Lemma indices_of_none (x : pystr) (lines : list pystr) : forall i,
  ~ In x lines -> indices_of x i lines = [].
Proof.
  induction lines as [|ln lines IH]; intros i Hnot; simpl; [reflexivity|].
  destruct (str_eqb ln x) eqn:Heq.
  - apply str_eqb_eq in Heq. exfalso. apply Hnot. left. exact Heq.
  - apply IH. intros Hin. apply Hnot. right. exact Hin.
Qed.

Lemma indices_of_some (x : pystr) (lines : list pystr) : forall i,
  In x lines -> indices_of x i lines <> [].
Proof.
  induction lines as [|ln lines IH]; intros i Hin; simpl; [contradiction|].
  destruct (str_eqb ln x) eqn:Heq; [discriminate|].
  apply IH. destruct Hin as [Hin | Hin]; [|exact Hin].
  apply str_eqb_neq in Heq. contradiction.
Qed.

Lemma last_indices_of (x : pystr) (lines : list pystr) : forall i,
  In x lines ->
  exists pre rest,
    lines = pre ++ x :: rest /\ ~ In x rest
    /\ last (indices_of x i lines) 0 = i + length pre.
Proof.
  induction lines as [|ln lines IH]; intros i Hin; [contradiction|].
  destruct (In_dec (list_eq_dec N.eq_dec) x lines) as [Hlater | Hnot].
  - destruct (IH (S i) Hlater) as [pre [rest [Heq [Hrest Hlast]]]].
    exists (ln :: pre), rest. split; [simpl; rewrite <- Heq; reflexivity|].
    split; [exact Hrest|].
    pose proof (indices_of_some x lines (S i) Hlater) as Hne.
    simpl. destruct (str_eqb ln x).
    + destruct (indices_of x (S i) lines) as [|k ks]; [contradiction|].
      change (last (i :: k :: ks) 0) with (last (k :: ks) 0). rewrite Hlast. lia.
    + rewrite Hlast. lia.
  - destruct Hin as [-> | Hin]; [|contradiction].
    exists [], lines. split; [reflexivity|]. split; [exact Hnot|].
    simpl. rewrite str_eqb_refl, (indices_of_none x lines (S i) Hnot). simpl. lia.
Qed.

Lemma skipn_length_app (A : Type) (pre l : list A) : skipn (length pre) (pre ++ l) = l.
Proof. induction pre as [|x pre IH]; [reflexivity | exact IH]. Qed.

(** X5. The working block of an article is a suffix of the stripped,
    non-empty lines of the page text.  When a line is the banner, the block
    begins at the last such line: its first line is the banner and no later
    line is; without a banner line the block is all the lines. *)
Theorem extract_main_text_block_from_last_banner (text : pystr) :
  let lines := filter (fun ln => negb (is_empty ln)) (map strip (split_on NL text)) in
  let block := extract_main_text_block text in
  exists pre,
    lines = pre ++ block
    /\ (In BANNER lines -> hd [] block = BANNER /\ ~ In BANNER (tl block))
    /\ (~ In BANNER lines -> pre = []).
Proof.
  intros lines block. unfold block, extract_main_text_block. fold lines.
  destruct (In_dec (list_eq_dec N.eq_dec) BANNER lines) as [Hin | Hnot].
  - destruct (last_indices_of BANNER lines 0 Hin) as [pre [rest [Heq [Hrest Hlast]]]].
    rewrite Hlast. simpl plus. exists pre.
    assert (Hskip : skipn (length pre) lines = BANNER :: rest)
      by (rewrite Heq; apply skipn_length_app).
    rewrite Hskip.
    split; [exact Heq|]. split; [intros _; split; [reflexivity | exact Hrest]|].
    intros Hno. contradiction.
  - rewrite (indices_of_none BANNER lines 0 Hnot). exists [].
    split; [reflexivity|]. split; [intros Hin; contradiction | reflexivity].
Qed.

(** ** The body of an article *)

Lemma clean_body_prefix (body : list pystr) :
  exists post, body = clean_body body ++ post.
Proof.
  induction body as [|ln body [post IH]]; [exists []; reflexivity|].
  simpl. destruct (is_stop_marker ln).
  - exists (ln :: body). reflexivity.
  - exists post. simpl. rewrite <- IH. reflexivity.
Qed.

Lemma index_of_split (x : pystr) (block : list pystr) : forall i,
  index_of x block = Some i ->
  exists pre, block = pre ++ x :: skipn (i + 1) block /\ ~ In x pre.
Proof.
  induction block as [|ln block IH]; intros i; simpl; [discriminate|].
  destruct (str_eqb ln x) eqn:Heq.
  - intros [= <-]. apply str_eqb_eq in Heq. subst ln. exists []. split; [reflexivity | tauto].
  - destruct (index_of x block) as [k|] eqn:Hk; [|discriminate].
    intros [= <-]. destruct (IH k eq_refl) as [pre [Hpre Hnot]].
    exists (ln :: pre). split.
    + simpl. rewrite <- Hpre. reflexivity.
    + apply str_eqb_neq in Heq. intros [H | H]; [contradiction | exact (Hnot H)].
Qed.

Lemma index_of_In (x : pystr) (block : list pystr) :
  In x block -> exists i, index_of x block = Some i.
Proof.
  induction block as [|ln block IH]; intros Hin; [contradiction|].
  simpl. destruct (str_eqb ln x) eqn:Heq; [exists 0; reflexivity|].
  destruct Hin as [-> | Hin]; [rewrite str_eqb_refl in Heq; discriminate|].
  destruct (IH Hin) as [i ->]. exists (S i). reflexivity.
Qed.

(** X6. Every body line of an article is a stripped, non-empty line of the
    working block, and the body is a run of consecutive block lines: with a
    title, the title is not empty and the body starts right after the first
    block line equal to it; without a title, the body is a prefix of the
    block from index 10 on. *)
Theorem article_body_follows_title (E : Externals) (html url : pystr) :
  let block := extract_main_text_block (soup_text html) in
  let art := parse_article_page html url in
  Forall clean_line (art_body_lines art)
  /\ match art_title art with
     | Some t =>
         t <> []
         /\ exists pre post,
              block = pre ++ t :: art_body_lines art ++ post /\ ~ In t pre
     | None => exists post, skipn 10 block = art_body_lines art ++ post
     end.
Proof.
  intros block art.
  pose proof (extract_main_text_block_clean (soup_text html)) as Hclean.
  fold block in Hclean.
  assert (Hbody : art_body_lines art = clean_body (body_start block (find_title block)))
    by reflexivity.
  assert (Htitle : art_title art = find_title block) by reflexivity.
  rewrite Htitle, Hbody. clear Htitle Hbody art.
  pose proof (@find_title_code_rule block Hclean) as Hrule.
  destruct (code_title_rule block) as [[j t]|] eqn:Hcode; cbn [option_map snd] in Hrule;
    rewrite Hrule.
  - destruct (@code_title_rule_line block Hclean j t Hcode) as [Hj [Hnth Hne]].
    assert (Hin : In t block) by (rewrite <- Hnth; apply nth_In; exact Hj).
    destruct (index_of_In t block Hin) as [i Hi].
    destruct (index_of_split t block i Hi) as [pre [Hpre Hnot]].
    assert (Hstart : body_start block (Some t) = skipn (i + 1) block).
    { unfold body_start. destruct t as [|c t]; [congruence|]. rewrite Hi. reflexivity. }
    rewrite Hstart.
    destruct (clean_body_prefix (skipn (i + 1) block)) as [post Hpost].
    split; [|split; [exact Hne|]].
    + apply Forall_forall. intros ln Hln. rewrite Forall_forall in Hclean. apply Hclean.
      rewrite Hpre. apply in_or_app. right. right. rewrite Hpost.
      apply in_or_app. left. exact Hln.
    + exists pre, post. split; [|exact Hnot]. rewrite <- Hpost. exact Hpre.
  - cbn [body_start].
    destruct (clean_body_prefix (skipn 10 block)) as [post Hpost].
    split; [|exists post; exact Hpost].
    apply Forall_forall. intros ln Hln. rewrite Forall_forall in Hclean. apply Hclean.
    rewrite <- (firstn_skipn 10 block). apply in_or_app. right. rewrite Hpost.
    apply in_or_app. left. exact Hln.
Qed.

(** ** The fields of an article *)

Lemma after_first_none (sep : N) (s : pystr) : ~ In sep s -> after_first sep s = None.
Proof.
  induction s as [|c s IH]; intros Hnot; [reflexivity|].
  cbn [after_first]. destruct (c =? sep)%N eqn:Hc.
  - apply N.eqb_eq in Hc. exfalso. apply Hnot. left. exact Hc.
  - apply IH. intros H. apply Hnot. right. exact H.
Qed.

Lemma after_first_app (sep : N) (a b : pystr) :
  ~ In sep a -> after_first sep (a ++ sep :: b) = Some b.
Proof.
  induction a as [|c a IH]; intros Hnot; cbn [app after_first].
  - rewrite N.eqb_refl. reflexivity.
  - destruct (c =? sep)%N eqn:Hc.
    + apply N.eqb_eq in Hc. exfalso. apply Hnot. left. exact Hc.
    + apply IH. intros H. apply Hnot. right. exact H.
Qed.

Lemma find_value_in_first (prefix : pystr) (lines : list pystr) :
  match find_value_in prefix lines with
  | None => Forall (fun ln => starts_with prefix ln = false) lines
  | Some v =>
      exists pre ln post,
        lines = pre ++ ln :: post
        /\ Forall (fun x => starts_with prefix x = false) pre
        /\ starts_with prefix ln = true
        /\ v = strip (split1_last FW_COLON ln)
  end.
Proof.
  induction lines as [|ln lines IH]; cbn [find_value_in]; [constructor|].
  destruct (starts_with prefix ln) eqn:Hln.
  - exists [], ln, lines. repeat split; [constructor | exact Hln].
  - destruct (find_value_in prefix lines) as [v|].
    + destruct IH as [pre [l [post [Heq [Hpre [Hl Hv]]]]]].
      exists (ln :: pre), l, post. rewrite Heq. repeat split; try assumption.
      constructor; assumption.
    + constructor; assumption.
Qed.

(** X7. A field of an article is looked up in the first 80 lines of the
    working block only, and the first line that starts with the label
    decides: the value is what follows the first fullwidth colon of that
    line, stripped, and the whole line, label included, when the line has
    no fullwidth colon; there is no value when no line starts with the
    label. *)
Theorem find_value_first_match (block : list pystr) (prefix : pystr) :
  match find_value block prefix with
  | None => Forall (fun ln => starts_with prefix ln = false) (firstn 80 block)
  | Some v =>
      exists pre ln post,
        firstn 80 block = pre ++ ln :: post
        /\ Forall (fun x => starts_with prefix x = false) pre
        /\ starts_with prefix ln = true
        /\ strip v = v
        /\ (~ In FW_COLON ln -> v = strip ln)
        /\ (forall a b, ln = a ++ FW_COLON :: b -> ~ In FW_COLON a -> v = strip b)
  end.
Proof.
  unfold find_value. pose proof (find_value_in_first prefix (firstn 80 block)) as H.
  destruct (find_value_in prefix (firstn 80 block)) as [v|]; [|exact H].
  destruct H as [pre [ln [post [Heq [Hpre [Hln Hv]]]]]].
  exists pre, ln, post. split; [exact Heq|]. split; [exact Hpre|]. split; [exact Hln|].
  split; [rewrite Hv; apply strip_idem|]. split.
  - intros Hnot. rewrite Hv. unfold split1_last.
    rewrite (after_first_none FW_COLON ln Hnot). reflexivity.
  - intros a b -> Ha. rewrite Hv. unfold split1_last.
    rewrite (after_first_app FW_COLON a b Ha). reflexivity.
Qed.

(** ** The Markdown document *)

Lemma split_on_no_sep (sep : N) (s : pystr) : ~ In sep s -> split_on sep s = [s].
Proof.
  induction s as [|c s IH]; intros Hnot; [reflexivity|].
  simpl. destruct (c =? sep)%N eqn:Hc.
  - apply N.eqb_eq in Hc. exfalso. apply Hnot. left. exact Hc.
  - rewrite IH; [reflexivity|]. intros H. apply Hnot. right. exact H.
Qed.

Lemma split_on_app_sep (sep : N) (p s : pystr) :
  ~ In sep p -> split_on sep (p ++ sep :: s) = p :: split_on sep s.
Proof.
  induction p as [|c p IH]; intros Hnot.
  - simpl. rewrite N.eqb_refl. reflexivity.
  - simpl. destruct (c =? sep)%N eqn:Hc.
    + apply N.eqb_eq in Hc. exfalso. apply Hnot. left. exact Hc.
    + rewrite IH; [reflexivity|]. intros H. apply Hnot. right. exact H.
Qed.

(** [text.split(sep)] undoes [sep.join(pieces)] when no piece holds the
    separator. *)
Lemma split_on_join (sep : N) (p : pystr) (pieces : list pystr) :
  Forall (fun s => ~ In sep s) (p :: pieces) ->
  split_on sep (join [sep] (p :: pieces)) = p :: pieces.
Proof.
  revert p. induction pieces as [|q pieces IH]; intros p H.
  - simpl. apply split_on_no_sep. inversion H. assumption.
  - inversion H as [|? ? Hp Hrest]; subst.
    change (join [sep] (p :: q :: pieces)) with (p ++ sep :: join [sep] (q :: pieces)).
    rewrite (split_on_app_sep sep p _ Hp), (IH q Hrest). reflexivity.
Qed.

Ltac no_newline :=
  repeat (let H := fresh in intros [H | H]; [discriminate H | revert H]); intros [].

Lemma to_markdown_pieces (a : Article) :
  exists header,
    to_markdown a = join [NL] (header ++ [pystr_of_string "---"; []] ++ art_body_lines a ++ [[]])
    /\ hd [] header = pystr_of_string "# " ++ py_or_str (art_title a) NO_TITLE
    /\ length header
       = 6 + (if truthy (art_news_type a) then 1 else 0)
           + (if truthy (art_biz_type a) then 1 else 0)
    /\ (Forall (fun s => ~ In NL s) (article_strings a) ->
        Forall (fun s => ~ In NL s) header).
Proof.
  exists ([pystr_of_string "# " ++ py_or_str (art_title a) NO_TITLE; []]
          ++ [MD_DATE ++ py_or_str (art_date a) []]
          ++ [MD_UNIT ++ py_or_str (art_unit a) []]
          ++ (if truthy (art_news_type a)
              then [MD_NEWS_TYPE ++ or_empty (art_news_type a)] else [])
          ++ (if truthy (art_biz_type a)
              then [MD_BIZ_TYPE ++ or_empty (art_biz_type a)] else [])
          ++ [MD_LINK ++ art_url a; []]).
  split; [|split; [reflexivity|split]].
  - unfold to_markdown. f_equal. cbn [app].
    destruct (truthy (art_news_type a)); destruct (truthy (art_biz_type a)); reflexivity.
  - destruct (truthy (art_news_type a)); destruct (truthy (art_biz_type a)); reflexivity.
  - unfold article_strings. intros H.
    inversion H as [|? ? Ht H1]; subst. inversion H1 as [|? ? Hd H2]; subst.
    inversion H2 as [|? ? Hu H3]; subst. inversion H3 as [|? ? Hn H4]; subst.
    inversion H4 as [|? ? Hb H5]; subst. inversion H5 as [|? ? Hl _]; subst.
    assert (Hor : forall x y, ~ In NL (or_empty x) -> ~ In NL y -> ~ In NL (py_or_str x y)).
    { intros [[|c s]|] y Hx Hy; simpl in *; assumption. }
    assert (Hnil : ~ In NL []) by (intros []).
    assert (Happ : forall x y : pystr, ~ In NL x -> ~ In NL y -> ~ In NL (x ++ y)).
    { intros x y Hx Hy Hin. apply in_app_or in Hin. tauto. }
    assert (Hnews : Forall (fun s => ~ In NL s)
                      (if truthy (art_news_type a)
                       then [MD_NEWS_TYPE ++ or_empty (art_news_type a)] else [])).
    { destruct (truthy (art_news_type a)); repeat constructor.
      apply Happ; [cbv; no_newline | exact Hn]. }
    assert (Hbiz : Forall (fun s => ~ In NL s)
                     (if truthy (art_biz_type a)
                      then [MD_BIZ_TYPE ++ or_empty (art_biz_type a)] else [])).
    { destruct (truthy (art_biz_type a)); repeat constructor.
      apply Happ; [cbv; no_newline | exact Hb]. }
    cbn [app].
    constructor; [apply Happ; [cbv; no_newline | apply Hor; [exact Ht | cbv; no_newline]]|].
    constructor; [exact Hnil|].
    constructor; [apply Happ; [cbv; no_newline | apply Hor; [exact Hd | exact Hnil]]|].
    constructor; [apply Happ; [cbv; no_newline | apply Hor; [exact Hu | exact Hnil]]|].
    apply Forall_app. split; [exact Hnews|].
    apply Forall_app. split; [exact Hbiz|].
    constructor; [apply Happ; [cbv; no_newline | exact Hl]|].
    constructor; [exact Hnil | constructor].
Qed.

(** X8. When no field and no body line of an article holds a newline,
    splitting its Markdown document at the newlines gives back: a header
    that begins with the heading line and has 6 lines, plus one for a news
    type and one for a business type; the rule and an empty line; the body
    lines unchanged and in order; and one last empty piece, so the document
    ends with a newline. *)
Theorem to_markdown_lines (a : Article) :
  Forall (fun s => ~ In NL s) (article_strings a) ->
  exists header,
    split_on NL (to_markdown a) = header ++ [pystr_of_string "---"; []] ++ art_body_lines a ++ [[]]
    /\ hd [] header = pystr_of_string "# " ++ py_or_str (art_title a) NO_TITLE
    /\ length header
       = 6 + (if truthy (art_news_type a) then 1 else 0)
           + (if truthy (art_biz_type a) then 1 else 0).
Proof.
  intros H. destruct (to_markdown_pieces a) as [header [Hmd [Hhd [Hlen Hclean]]]].
  exists header. split; [|split; assumption].
  rewrite Hmd. specialize (Hclean H).
  destruct header as [|h header]; [discriminate|].
  cbn [app]. apply split_on_join. cbn [app] in *.
  inversion Hclean as [|? ? Hh Hrest]; subst. constructor; [exact Hh|].
  apply Forall_app. split; [exact Hrest|].
  constructor; [cbv; no_newline|]. constructor; [intros []|].
  apply Forall_app. split; [|constructor; [intros [] | constructor]].
  unfold article_strings in H.
  do 6 (inversion H as [|? ? _ H']; subst; clear H; rename H' into H). exact H.
Qed.

Lemma to_markdown_lines_witness :
  let a := mkArticle (pystr_of_string "u") None None
             (Some (pystr_of_string "113-05-01")) (Some (pystr_of_string "U1"))
             (Some (pystr_of_string "T1"))
             [pystr_of_string "one"; pystr_of_string "two"] in
  Forall (fun s => ~ In NL s) (article_strings a)
  /\ exists header,
       split_on NL (to_markdown a) = header ++ [pystr_of_string "---"; []] ++ art_body_lines a ++ [[]]
       /\ hd [] header = pystr_of_string "# " ++ py_or_str (art_title a) NO_TITLE
       /\ length header
          = 6 + (if truthy (art_news_type a) then 1 else 0)
              + (if truthy (art_biz_type a) then 1 else 0).
Proof.
  intros a.
  assert (H : Forall (fun s => ~ In NL s) (article_strings a))
    by (repeat constructor; cbv; no_newline).
  split; [exact H | exact (to_markdown_lines a H)].
Defined.

(** ** Writing a document *)

Section DictDelete.
Variable V : Type.
Implicit Types (d : pydict V) (k : pystr) (v : V).

Lemma dict_get_absent k d : ~ In k (dict_keys d) -> dict_get k d = None.
Proof.
  induction d as [|[k' v'] d IH]; simpl; [reflexivity|].
  intros Hnot. destruct (str_eqb k' k) eqn:Hk.
  - apply str_eqb_eq in Hk. exfalso. apply Hnot. left. exact Hk.
  - apply IH. intros Hin. apply Hnot. right. exact Hin.
Qed.

Lemma dict_keys_del_incl k k0 d : In k0 (dict_keys (dict_del k d)) -> In k0 (dict_keys d).
Proof.
  induction d as [|[k' v'] d IH]; simpl; [tauto|].
  destruct (str_eqb k' k); simpl; [tauto|].
  intros [H | H]; [left; exact H | right; apply IH; exact H].
Qed.

Lemma dict_del_NoDup k d : NoDup (dict_keys d) -> NoDup (dict_keys (dict_del k d)).
Proof.
  induction d as [|[k' v'] d IH]; simpl; [trivial|].
  intros Hnd. inversion Hnd as [|? ? Hnot Hnd']; subst.
  destruct (str_eqb k' k); [exact Hnd'|]. simpl. constructor.
  - intros Hin. apply Hnot. apply (dict_keys_del_incl k). exact Hin.
  - apply IH. exact Hnd'.
Qed.

Lemma dict_get_del_same k d : NoDup (dict_keys d) -> dict_get k (dict_del k d) = None.
Proof.
  induction d as [|[k' v'] d IH]; simpl; [reflexivity|].
  intros Hnd. inversion Hnd as [|? ? Hnot Hnd']; subst.
  destruct (str_eqb k' k) eqn:Hk.
  - apply str_eqb_eq in Hk. subst k'. apply dict_get_absent. exact Hnot.
  - simpl. rewrite Hk. apply IH. exact Hnd'.
Qed.

Lemma dict_get_del_other k k0 d : k0 <> k -> dict_get k0 (dict_del k d) = dict_get k0 d.
Proof.
  intros Hne. induction d as [|[k' v'] d IH]; simpl; [reflexivity|].
  destruct (str_eqb k' k) eqn:Hk.
  - apply str_eqb_eq in Hk. subst k'.
    assert (H : str_eqb k k0 = false) by (apply str_eqb_neq; congruence).
    rewrite H. reflexivity.
  - simpl. destruct (str_eqb k' k0); [reflexivity | exact IH].
Qed.

Lemma NoDup_snoc (l : list pystr) k : NoDup l -> ~ In k l -> NoDup (l ++ [k]).
Proof.
  induction l as [|x l IH]; intros Hnd Hnot; simpl.
  - constructor; [intros [] | constructor].
  - inversion Hnd as [|? ? Hx Hnd']; subst. constructor.
    + intros Hin. apply in_app_or in Hin. destruct Hin as [Hin | [-> | []]].
      * exact (Hx Hin).
      * apply Hnot. left. reflexivity.
    + apply IH; [exact Hnd'|]. intros Hin. apply Hnot. right. exact Hin.
Qed.

Lemma dict_set_NoDup k v d : NoDup (dict_keys d) -> NoDup (dict_keys (dict_set k v d)).
Proof.
  intros Hnd. rewrite dict_keys_set.
  destruct (str_mem k (dict_keys d)) eqn:Hmem; [exact Hnd|].
  apply str_mem_not_In in Hmem. apply NoDup_snoc; assumption.
Qed.

End DictDelete.

Lemma tmp_path_differs (path : pystr) : path ++ TMP_SUFFIX <> path.
Proof.
  intros H. apply (f_equal (@length N)) in H. rewrite length_app in H.
  simpl in H. lia.
Qed.

(** The dictionary after a write to [tmp] and the move of [tmp] onto
    [path]. *)
Lemma replace_via_tmp (d : pydict pystr) (path tmp content : pystr) :
  NoDup (dict_keys d) ->
  tmp <> path ->
  let d' := dict_set path content (dict_del tmp (dict_set tmp content d)) in
  dict_get path d' = Some content
  /\ dict_get tmp d' = None
  /\ (forall q, q <> path -> q <> tmp -> dict_get q d' = dict_get q d)
  /\ NoDup (dict_keys d').
Proof.
  intros Hnd Hne d'. unfold d'.
  assert (Hset : NoDup (dict_keys (dict_set tmp content d)))
    by (apply dict_set_NoDup; exact Hnd).
  repeat split.
  - apply dict_get_set_same.
  - rewrite (@dict_get_set_other pystr path tmp content _ Hne).
    apply dict_get_del_same. exact Hset.
  - intros q Hq Hqt.
    rewrite (@dict_get_set_other pystr path q content _ Hq).
    rewrite (dict_get_del_other pystr tmp q _ Hqt).
    apply (@dict_get_set_other pystr tmp q content _ Hqt).
  - apply dict_set_NoDup. apply dict_del_NoDup. exact Hset.
Qed.

Lemma dict_set_tmp_only (d : pydict pystr) (tmp v : pystr) :
  NoDup (dict_keys d) ->
  dict_get tmp (dict_set tmp v d) = Some v
  /\ (forall q, q <> tmp -> dict_get q (dict_set tmp v d) = dict_get q d)
  /\ NoDup (dict_keys (dict_set tmp v d)).
Proof.
  intros Hnd. split; [apply dict_get_set_same|]. split.
  - intros q Hq. apply (@dict_get_set_other pystr tmp q v _ Hq).
  - apply dict_set_NoDup. exact Hnd.
Qed.

(** What [atomic_write] leaves behind, by the step at which it ends. *)
Lemma atomic_write_cases (E : Externals) (path content : pystr) (w : World) :
  NoDup (dict_keys (files w)) ->
  let tmp := path ++ TMP_SUFFIX in
  let r := atomic_write path content w in
  fetch_log (snd r) = fetch_log w
  /\ NoDup (dict_keys (files (snd r)))
  /\ (forall q, q <> path -> q <> tmp ->
                dict_get q (files (snd r)) = dict_get q (files w))
  /\ match fst r with
     | Ok _ =>
         fs_can_write tmp = true
         /\ fs_write tmp content = None
         /\ fs_can_replace tmp path = true
         /\ dict_get path (files (snd r)) = Some content
         /\ dict_get tmp (files (snd r)) = None
     | Raise e =>
         dict_get path (files (snd r)) = dict_get path (files w)
         /\ ((fs_can_write tmp = false /\ e = OSError tmp /\ snd r = w)
             \/ (fs_can_write tmp = true
                 /\ e = OSError tmp
                 /\ exists partial,
                      fs_write tmp content = Some partial
                      /\ dict_get tmp (files (snd r)) = Some partial)
             \/ (fs_can_write tmp = true
                 /\ fs_write tmp content = None
                 /\ fs_can_replace tmp path = false
                 /\ e = OSError path
                 /\ dict_get tmp (files (snd r)) = Some content))
     end.
Proof.
  intros Hnd tmp r. unfold r, atomic_write. fold tmp.
  assert (Hne : path <> tmp) by (intros H; exact (tmp_path_differs path (eq_sym H))).
  destruct (fs_can_write tmp).
  - destruct (fs_write tmp content) as [partial|].
    + cbn [fst snd files fetch_log].
      destruct (dict_set_tmp_only (files w) tmp partial Hnd) as [Htmp [Hothers Hkeys]].
      split; [reflexivity|]. split; [exact Hkeys|].
      split; [intros q _ Hq; apply Hothers; exact Hq|].
      split; [apply Hothers; exact Hne|].
      right. left. split; [reflexivity|]. split; [reflexivity|].
      exists partial. split; [reflexivity | exact Htmp].
    + cbv zeta. destruct (fs_can_replace tmp path); cbn [fst snd files fetch_log].
      * destruct (replace_via_tmp (files w) path tmp content Hnd (tmp_path_differs path))
          as [Hpath [Htmp [Hothers Hkeys]]].
        repeat split; assumption.
      * destruct (dict_set_tmp_only (files w) tmp content Hnd) as [Htmp [Hothers Hkeys]].
        split; [reflexivity|]. split; [exact Hkeys|].
        split; [intros q _ Hq; apply Hothers; exact Hq|].
        split; [apply Hothers; exact Hne|].
        right. right. repeat split. exact Htmp.
  - cbn [fst snd]. split; [reflexivity|]. split; [exact Hnd|].
    split; [reflexivity|]. split; [reflexivity|].
    left. repeat split.
Qed.

(** X9. A write is all or nothing for the target.  In an output directory
    whose paths are distinct, [atomic_write] fetches nothing and changes no
    file other than [path] and its temporary file [path.tmp].  When it
    returns, the open, the write and the move all went through, [path]
    holds the new content and there is no file [path.tmp] (one that existed
    before is gone).  When it raises, [path] is as it was before the call:
    either the temporary file could not be opened and nothing has changed;
    or the write raised and the temporary file is left with what was written
    of the content; or the move raised and the temporary file is left with
    the whole content. *)
Theorem atomic_write_effect (E : Externals) (path content : pystr) (w : World) :
  NoDup (dict_keys (files w)) ->
  let tmp := path ++ TMP_SUFFIX in
  let r := atomic_write path content w in
  fetch_log (snd r) = fetch_log w
  /\ NoDup (dict_keys (files (snd r)))
  /\ (forall q, q <> path -> q <> tmp ->
                dict_get q (files (snd r)) = dict_get q (files w))
  /\ match fst r with
     | Ok _ =>
         fs_can_write tmp = true
         /\ fs_write tmp content = None
         /\ fs_can_replace tmp path = true
         /\ dict_get path (files (snd r)) = Some content
         /\ dict_get tmp (files (snd r)) = None
     | Raise e =>
         dict_get path (files (snd r)) = dict_get path (files w)
         /\ ((fs_can_write tmp = false /\ e = OSError tmp /\ snd r = w)
             \/ (fs_can_write tmp = true
                 /\ e = OSError tmp
                 /\ exists partial,
                      fs_write tmp content = Some partial
                      /\ dict_get tmp (files (snd r)) = Some partial)
             \/ (fs_can_write tmp = true
                 /\ fs_write tmp content = None
                 /\ fs_can_replace tmp path = false
                 /\ e = OSError path
                 /\ dict_get tmp (files (snd r)) = Some content))
     end.
Proof.
  exact (atomic_write_cases E path content w).
Qed.

Lemma atomic_write_effect_witness :
  let E := Fake.externals [] in
  let w := Fake.world0 [] in
  let r := @atomic_write E Fake.out (pystr_of_string "x") w in
  NoDup (dict_keys (files w))
  /\ fst r = Ok tt
  /\ dict_get Fake.out (files (snd r)) = Some (pystr_of_string "x")
  /\ dict_get (Fake.out ++ TMP_SUFFIX) (files (snd r)) = None.
Proof.
  intros E w r.
  assert (H : NoDup (dict_keys (files w))) by constructor.
  split; [exact H|].
  pose proof (@atomic_write_effect E Fake.out (pystr_of_string "x") w H) as P.
  cbv zeta in P. destruct P as [_ [_ [_ P]]].
  change (fst (@atomic_write E Fake.out (pystr_of_string "x") w)) with (@Ok Datatypes.unit tt) in P.
  cbv iota in P. destruct P as [_ [_ [_ [P1 P2]]]]. repeat split; assumption.
Defined.

(** ** The loop over the records of a page *)

Section Items.
Context {E : Externals}.
Variables (out_dir : pystr) (sleep : PyFloat).

(** One record whose target does not exist: the outcome of its [try]
    block decides the counters, and the loop goes on.  The pause does not
    change the world, and an exception of the pause is caught after the
    document was counted. *)
Lemma process_items_step (item : NewsItem) (rest : list NewsItem) (t : Totals) (w : World) :
  path_exists (target_path out_dir (unit item) (date item) (title item)) w = false ->
  process_items out_dir sleep (item :: rest) t w
  = process_items out_dir sleep rest
      (match fst (download_item out_dir item w) with
       | Ok _ => mkTotals (S (total_saved t)) (S (total_seen t))
       | Raise _ => mkTotals (total_saved t) (S (total_seen t))
       end)
      (snd (download_item out_dir item w)).
Proof.
  intros Hex. cbn [process_items]. rewrite Hex.
  unfold bind at 1. unfold try_download, py_sleep.
  destruct (download_item out_dir item w) as [[u|e] w1]; [|reflexivity].
  destruct (time_sleep sleep); reflexivity.
Qed.

Lemma process_items_counts (items : list NewsItem) : forall (t : Totals) (w : World),
  exists stop t' w',
    process_items out_dir sleep items t w = (Ok (stop, t'), w')
    /\ total_seen t <= total_seen t' <= total_seen t + length items
    /\ total_saved t <= total_saved t'
    /\ total_saved t' - total_saved t <= total_seen t' - total_seen t
    /\ (stop = false -> total_seen t' = total_seen t + length items)
    /\ (stop = true -> total_saved t' - total_saved t < total_seen t' - total_seen t).
Proof.
  induction items as [|item rest IH]; intros t w.
  - exists false, t, w. cbn. repeat split; first [lia | discriminate | (intros _; simpl; lia)].
  - destruct (path_exists (target_path out_dir (unit item) (date item) (title item)) w)
      eqn:Hex.
    + exists true, (mkTotals (total_saved t) (S (total_seen t))), w.
      cbn [process_items]. rewrite Hex. cbn [total_saved total_seen length].
      repeat split; first [lia | discriminate | (intros _; lia)].
    + rewrite (process_items_step item rest t w Hex).
      match goal with |- context [process_items out_dir sleep rest ?t1 ?w1] =>
        destruct (IH t1 w1) as [stop [t' [w' [Hrun [Hseen [Hsaved [Hle [Hall Hstop]]]]]]]]
      end.
      exists stop, t', w'. split; [exact Hrun|].
      destruct (fst (download_item out_dir item w)); cbn [total_saved total_seen length] in *;
        repeat split; try lia; intros Hs; try (specialize (Hall Hs)); try (specialize (Hstop Hs)); lia.
Qed.

End Items.







(** ** What makes a run fail *)

Section Failures.
Context {E : Externals}.
Variable sleep : PyFloat.






End Failures.


(** ** The requests of discovery *)

Section Probes.
Context {E : Externals}.

(** The scheme of every candidate has the shape of its mode. *)
Lemma candidates_shape (page_size : Z) (c : Candidate) :
  In c (candidates page_size) ->
  let '(mode, p, step, one_based) := fst c in
  match mode with
  | PageMode => In p PAGE_PARAMS /\ step = 0%Z /\ one_based = false
  | OffsetMode => In p OFFSET_PARAMS /\ step = page_size
  end.
Proof.
  unfold candidates, page_candidates, offset_candidates, offset_candidates_of.
  cbn [map flat_map app PAGE_PARAMS OFFSET_PARAMS In].
  intros H.
  repeat (destruct H as [<- | H]; [cbn; auto 20|]).
  contradiction.
Qed.

(** What discovery has fetched when it ends, and the candidate behind a
    scheme it returns. *)
Lemma discover_trace (base_url : pystr) (first : list NewsItem) (sleep : PyFloat)
    (w : World) :
  let r := discover_pagination_mode base_url first sleep w in
  let cands := candidates (Z.max 1 (Z.of_nat (length first))) in
  exists k,
    k <= 14
    /\ fetched_only w (firstn k (map (candidate_url base_url) cands)) (snd r)
    /\ (first = [] -> k = 0)
    /\ (fst r = Raise (DiscoveryError NoCandidate) -> k = 14)
    /\ (forall s, fst r = Ok s -> first <> [] /\ exists c, In c cands /\ s = fst c).
Proof.
  intros r cands. unfold r. destruct first as [|item items].
  - exists 0. split; [lia|]. split; [apply fetched_only_refl|].
    split; [reflexivity|]. split; discriminate.
  - rewrite (@discover_try E base_url item items sleep w). cbn [fst snd].
    destruct (@try_candidates_trace E base_url (url_set (item :: items)) sleep cands w)
      as [k [Hk [Hlog Hout]]].
    change (length cands) with 14 in Hk, Hout.
    exists k. split; [exact Hk|]. split; [exact Hlog|]. split; [discriminate|].
    fold cands.
    destruct (fst (try_candidates base_url (url_set (item :: items)) sleep cands w))
      as [[s|]|e]; cbn [discovery_outcome].
    + split; [discriminate|]. intros s' [= <-]. split; [discriminate|].
      destruct Hout as [pre [c [post [Hc [Hs _]]]]]. exists c.
      split; [rewrite Hc; apply in_or_app; right; left; reflexivity | exact Hs].
    + split; [intros _; apply Hout | discriminate].
    + split; [|discriminate]. intros [= ->].
      destruct Hout as [[c [_ Hc]] | [[ref Href] | [Hs _]]]; discriminate.
Qed.

End Probes.

(** X14. Whatever the network answers, discovery fetches a prefix of the
    14 candidate URLs, in their order, and writes no file; it fetches
    nothing when the first page has no record, and it reports that no
    candidate worked only after all 14 probes. *)
Theorem discovery_probes_candidates_in_order (E : Externals) (base_url : pystr)
    (first : list NewsItem) (sleep : PyFloat) (w : World) :
  let r := discover_pagination_mode base_url first sleep w in
  let urls :=
    map (candidate_url base_url) (candidates (Z.max 1 (Z.of_nat (length first)))) in
  length urls = 14
  /\ exists k,
       fetched_only w (firstn k urls) (snd r)
       /\ (first = [] -> k = 0)
       /\ (fst r = Raise (DiscoveryError NoCandidate) -> k = 14).
Proof.
  intros r urls. split; [reflexivity|].
  destruct (discover_trace base_url first sleep w) as [k [_ [Hlog [Hempty [Hall _]]]]].
  exists k. split; [exact Hlog|]. split; [exact Hempty | exact Hall].
Qed.

(** X15. A scheme that discovery returns comes from a first page with
    records and is either a page scheme, with one of the six page parameter
    names, step 0 and no offset base, or an offset scheme, with one of the
    four offset parameter names and the number of records of the first
    page as its step. *)
Theorem discovered_scheme_shape (E : Externals) (base_url : pystr)
    (first : list NewsItem) (sleep : PyFloat) (w : World) (mode : Mode) (p : pystr)
    (step : Z) (one_based : bool) :
  fst (discover_pagination_mode base_url first sleep w) = Ok (mode, p, step, one_based) ->
  first <> []
  /\ match mode with
     | PageMode => In p PAGE_PARAMS /\ step = 0%Z /\ one_based = false
     | OffsetMode => In p OFFSET_PARAMS /\ step = Z.of_nat (length first)
     end.
Proof.
  intros H.
  destruct (discover_trace base_url first sleep w) as [k [_ [_ [_ [_ Hs]]]]].
  destruct (Hs _ H) as [Hne [c [Hin Hc]]]. split; [exact Hne|].
  pose proof (candidates_shape _ c Hin) as Hshape. rewrite <- Hc in Hshape.
  assert (Hsize : Z.max 1 (Z.of_nat (length first)) = Z.of_nat (length first)).
  { destruct first as [|item items]; [contradiction | cbn [length]; lia]. }
  rewrite Hsize in Hshape. exact Hshape.
Qed.

Lemma discovered_scheme_shape_witness :
  let E := Fake.externals Fake.paged_site in
  let w := Fake.world0 Fake.paged_site in
  fst (discover_pagination_mode Fake.base Fake.first_page_items 0%Z w)
  = Ok (PageMode, pystr_of_string "pageIndex", 0%Z, false)
  /\ Fake.first_page_items <> []
  /\ In (pystr_of_string "pageIndex") PAGE_PARAMS /\ 0%Z = 0%Z /\ false = false.
Proof.
  intros E w.
  assert (H : fst (discover_pagination_mode Fake.base Fake.first_page_items 0%Z w)
              = Ok (PageMode, pystr_of_string "pageIndex", 0%Z, false))
    by (vm_compute; reflexivity).
  split; [exact H|].
  exact (@discovered_scheme_shape E Fake.base Fake.first_page_items 0%Z w
           PageMode (pystr_of_string "pageIndex") 0%Z false H).
Defined.

(** X16. The URL by which discovery probes a candidate is the URL the
    generator requests for the page of index 2 under the scheme of that
    candidate; for the page of index 1 an offset scheme requests the offset
    0, or 1 when it is one-based: the start of the listing. *)
Theorem probe_url_is_second_page (E : Externals) (base_url : pystr) (page_size : Z) :
  Forall (fun c => page_url base_url (fst c) 2 = candidate_url base_url c)
    (candidates page_size)
  /\ forall (p : pystr) (one_based : bool),
       page_url base_url (OffsetMode, p, page_size, one_based) 1
       = set_query_param base_url p (str_of_Z (if one_based then 1 else 0)).
Proof.
  split.
  - unfold candidates, page_candidates, offset_candidates, offset_candidates_of.
    assert (H1 : ((2 - 1) * page_size)%Z = page_size) by lia.
    cbn [map flat_map app PAGE_PARAMS OFFSET_PARAMS].
    repeat constructor; cbn [fst page_url candidate_url]; rewrite ?H1; reflexivity.
  - intros p one_based. cbn [page_url].
    replace ((1 - 1) * page_size)%Z with 0%Z by lia.
    destruct one_based; reflexivity.
Qed.

(** ** Runs of the generator *)

Section GeneratorRuns.
Context {E : Externals}.
Variables (base_url : pystr) (sleep : PyFloat).

(** The generator resumed after a page of the loop: the pause, then the
    next turn. *)
Lemma gen_next_loop_sleep (max_pages : Z) (scheme : Scheme) (n : Z) (w : World) :
  time_sleep sleep = true ->
  gen_next base_url sleep max_pages (GenLoopYielded scheme n) w
  = loop_turn base_url max_pages scheme n w.
Proof.
  intros H. cbn [gen_next]. unfold bind, py_sleep. rewrite H. reflexivity.
Qed.

Lemma gen_next_loop_no_sleep (max_pages : Z) (scheme : Scheme) (n : Z) (w : World) :
  time_sleep sleep = false ->
  gen_next base_url sleep max_pages (GenLoopYielded scheme n) w = (Raise SleepError, w).
Proof.
  intros H. cbn [gen_next]. unfold bind, py_sleep. rewrite H. reflexivity.
Qed.

(** The generator resumed after the first page: discovery, then the first
    turn of the loop, without a pause between them. *)
Lemma gen_next_first_yielded (max_pages : Z) (items1 : list NewsItem) (w : World) :
  max_pages <> 1%Z ->
  gen_next base_url sleep max_pages (GenFirstYielded items1) w
  = match discover_pagination_mode base_url items1 sleep w with
    | (Ok scheme, w1) => loop_turn base_url max_pages scheme 0 w1
    | (Raise e, w1) => (Raise e, w1)
    end.
Proof.
  intros H. cbn [gen_next]. rewrite (proj2 (Z.eqb_neq _ _) H). unfold bind.
  destruct (discover_pagination_mode base_url items1 sleep w) as [[s|e] w1]; reflexivity.
Qed.

Lemma run_gen_no_sleep (max_pages : Z) (scheme : Scheme) (n : Z) (w : World)
    (fuel : nat) :
  time_sleep sleep = false ->
  run_gen (S fuel) base_url sleep max_pages (GenLoopYielded scheme n) w
  = (Some ([], Raise SleepError), w).
Proof.
  intros H. cbn [run_gen]. rewrite (gen_next_loop_no_sleep _ _ _ _ H). reflexivity.
Qed.



(** From a state whose next step is the turn [n] of the loop, without a
    cap, when the pages [n + 1], ..., [n + count] have records and the page
    [n + count + 1] has none. *)
Lemma run_gen_turn_uncapped (resp : pystr -> option pystr) (scheme : Scheme) :
  fixed_mapping resp ->
  forall (count : nat) (n : Z) (st : GenState) (w0 w : World) (fuel : nat),
    gen_next base_url sleep 0 st w0 = loop_turn base_url 0 scheme n w ->
    (0 < count -> time_sleep sleep = true) ->
    (forall i, i < count ->
       exists html items,
         resp (page_url base_url scheme (n + 1 + Z.of_nat i)) = Some html
         /\ parse_list_page html = Ok items /\ items <> []) ->
    (exists html, resp (page_url base_url scheme (n + 1 + Z.of_nat count)) = Some html
                  /\ parse_list_page html = Ok []) ->
    S count <= fuel ->
    exists w',
      run_gen fuel base_url sleep 0 st w0
      = (Some (pages_from resp base_url scheme n count, Ok tt), w')
      /\ fetched_only w (page_urls_from base_url scheme n (S count)) w'.
Proof.
  intros Hfix.
  induction count as [|count IH]; intros n st w0 w fuel Hstep Hsleep Hpages Hlast Hfuel;
    (destruct fuel as [|fuel]; [lia|]);
    cbn [run_gen]; rewrite Hstep; unfold loop_turn; cbn [Z.eqb negb andb];
    unfold bind, lift;
    set (u := page_url base_url scheme (n + 1));
    pose proof (@fetch_html_fixed E resp Hfix u w) as Hr;
    pose proof (fetch_html_fetched u w) as Hf;
    destruct (fetch_html u w) as [r w1]; cbn [fst snd] in Hr, Hf.
  - destruct Hlast as [html [Hresp Hempty]].
    replace (n + 1 + Z.of_nat 0)%Z with (n + 1)%Z in Hresp by lia. fold u in Hresp.
    rewrite Hresp in Hr. subst r. rewrite Hempty.
    exists w1. split; [reflexivity | exact Hf].
  - destruct (Hpages 0) as [html [items [Hresp [Hp Hne]]]]; [lia|].
    replace (n + 1 + Z.of_nat 0)%Z with (n + 1)%Z in Hresp by lia. fold u in Hresp.
    rewrite Hresp in Hr. subst r. rewrite Hp.
    destruct items as [|it its]; [contradiction|].
    unfold ret.
    assert (Hs : time_sleep sleep = true) by (apply Hsleep; lia).
    destruct (IH (n + 1)%Z (GenLoopYielded scheme (n + 1)) w1 w1 fuel)
      as [w' [Hrun Hus]].
    + apply gen_next_loop_sleep. exact Hs.
    + intros _. exact Hs.
    + intros i Hi. destruct (Hpages (S i)) as [h [its' [Hh Hhne]]]; [lia|].
      exists h, its'. split; [|exact Hhne].
      replace (n + 1 + 1 + Z.of_nat i)%Z with (n + 1 + Z.of_nat (S i))%Z by lia. exact Hh.
    + destruct Hlast as [h [Hh Hhe]]. exists h. split; [|exact Hhe].
      replace (n + 1 + 1 + Z.of_nat count)%Z with (n + 1 + Z.of_nat (S count))%Z by lia.
      exact Hh.
    + lia.
    + rewrite Hrun. exists w'. split.
      * cbn [pages_from]. fold u. unfold records_at at 1. rewrite Hresp, Hp. reflexivity.
      * exact (fetched_only_trans Hf Hus).
Qed.

(** The whole run without a cap. *)
Lemma run_gen_uncapped (resp : pystr -> option pystr) (html1 : pystr)
    (items1 : list NewsItem) (scheme : Scheme) (count : nat) (w : World) (fuel : nat) :
  fixed_mapping resp ->
  (0 < count -> time_sleep sleep = true) ->
  resp base_url = Some html1 ->
  parse_list_page html1 = Ok items1 ->
  fst (discover_pagination_mode base_url items1 sleep (snd (fetch_html base_url w)))
  = Ok scheme ->
  (forall i, i < count ->
     exists html items,
       resp (page_url base_url scheme (1 + Z.of_nat i)) = Some html
       /\ parse_list_page html = Ok items /\ items <> []) ->
  (exists html, resp (page_url base_url scheme (1 + Z.of_nat count)) = Some html
                /\ parse_list_page html = Ok []) ->
  count + 2 <= fuel ->
  exists w',
    run_gen fuel base_url sleep 0 GenStart w
    = (Some ((0%Z, base_url, items1) :: pages_from resp base_url scheme 0 count, Ok tt),
       w')
    /\ fetched_only
         (snd (discover_pagination_mode base_url items1 sleep
                 (snd (fetch_html base_url w))))
         (page_urls_from base_url scheme 0 (S count)) w'.
Proof.
  intros Hfix Hsleep Hbase Hparse Hdisc Hpages Hlast Hfuel.
  destruct fuel as [|fuel]; [lia|]. cbn [run_gen gen_next]. unfold bind, lift.
  pose proof (@fetch_html_fixed E resp Hfix base_url w) as Hr.
  destruct (fetch_html base_url w) as [r w1]; cbn [fst snd] in *.
  rewrite Hbase in Hr. subst r. rewrite Hparse. unfold ret.
  assert (Hone : (0 <> 1)%Z) by discriminate.
  pose proof (gen_next_first_yielded 0 items1 w1 Hone) as Hstep.
  destruct (discover_pagination_mode base_url items1 sleep w1)
    as [r w2]; cbn [fst snd] in *. subst r.
  destruct (run_gen_turn_uncapped resp scheme Hfix count 0%Z (GenFirstYielded items1)
              w1 w2 fuel Hstep Hsleep)
    as [w' [Hrun Hus]]; [exact Hpages | exact Hlast | lia |].
  rewrite Hrun. exists w'. split; [reflexivity | exact Hus].
Qed.

(** The pages after the first have consecutive indices from [n + 1], the
    URLs of the scheme and records. *)
Lemma run_gen_turn_pages (max_pages : Z) (scheme : Scheme) (fuel : nat) :
  forall (n : Z) (st : GenState) (w0 w : World) (pages : list Page)
         (r : result Datatypes.unit) (w' : World),
    gen_next base_url sleep max_pages st w0 = loop_turn base_url max_pages scheme n w ->
    run_gen fuel base_url sleep max_pages st w0 = (Some (pages, r), w') ->
    forall (i : nat) (page : Page),
      nth_error pages i = Some page ->
      fst page = ((n + 1 + Z.of_nat i)%Z, page_url base_url scheme (n + 1 + Z.of_nat i))
      /\ snd page <> [].
Proof.
  induction fuel as [|fuel IH]; intros n st w0 w pages r w' Hstep; [discriminate|].
  cbn [run_gen]. rewrite Hstep. unfold loop_turn.
  destruct (negb (max_pages =? 0)%Z && (max_pages <? n + 1)%Z).
  - intros [= <- _ _] i page Hi. destruct i; discriminate.
  - unfold bind, lift.
    destruct (fetch_html (page_url base_url scheme (n + 1)) w) as [[html|e] w1].
    + destruct (parse_list_page html) as [[|it its]|e] eqn:Hp.
      * intros [= <- _ _] i page Hi. destruct i; discriminate.
      * unfold ret.
        destruct (run_gen fuel base_url sleep max_pages (GenLoopYielded scheme (n + 1)) w1)
          as [[[pages' r']|] w2] eqn:Hrun; [|discriminate].
        intros [= <- _ _] i page Hi. destruct i as [|i].
        -- injection Hi as <-. cbn [fst snd].
           replace (n + 1 + Z.of_nat 0)%Z with (n + 1)%Z by lia.
           split; [reflexivity | discriminate].
        -- cbn [nth_error] in Hi. destruct (time_sleep sleep) eqn:Hsleep.
           ++ destruct (IH _ _ _ _ _ _ _ (gen_next_loop_sleep _ _ _ _ Hsleep) Hrun
                          i page Hi) as [Hfst Hsnd].
              split; [|exact Hsnd]. rewrite Hfst.
              replace (n + 1 + 1 + Z.of_nat i)%Z with (n + 1 + Z.of_nat (S i))%Z by lia.
              reflexivity.
           ++ destruct fuel as [|fuel]; [discriminate Hrun|].
              rewrite (run_gen_no_sleep _ _ _ _ _ Hsleep) in Hrun.
              injection Hrun as <- _ _. destruct i; discriminate Hi.
      * intros [= <- _ _] i page Hi. destruct i; discriminate.
    + intros [= <- _ _] i page Hi. destruct i; discriminate.
Qed.

End GeneratorRuns.



(** X18. Without a cap and under a fixed mapping from URLs to responses:
    when the base page is answered and parses, discovery selects a scheme,
    the pages 1 to [count] of the scheme parse to records, the page
    [count] + 1 parses to no record and, if a page is yielded in the loop
    ([count] > 0), [time.sleep] accepts the delay, the generator yields the
    base page and the pages 1 to [count] and then ends normally; after
    discovery it has fetched exactly the pages 1 to [count] + 1, in
    order. *)
Theorem generator_stops_at_first_empty_page (E : Externals)
    (resp : pystr -> option pystr) (base_url html1 : pystr) (items1 : list NewsItem)
    (scheme : Scheme) (count : nat) (sleep : PyFloat) (w : World) (fuel : nat) :
  fixed_mapping resp ->
  (0 < count -> time_sleep sleep = true) ->
  resp base_url = Some html1 ->
  parse_list_page html1 = Ok items1 ->
  fst (discover_pagination_mode base_url items1 sleep (snd (fetch_html base_url w)))
  = Ok scheme ->
  (forall i, i < count ->
     exists html items,
       resp (page_url base_url scheme (1 + Z.of_nat i)) = Some html
       /\ parse_list_page html = Ok items /\ items <> []) ->
  (exists html, resp (page_url base_url scheme (1 + Z.of_nat count)) = Some html
                /\ parse_list_page html = Ok []) ->
  count + 2 <= fuel ->
  exists w',
    run_gen fuel base_url sleep 0 GenStart w
    = (Some ((0%Z, base_url, items1) :: pages_from resp base_url scheme 0 count, Ok tt),
       w')
    /\ fetched_only
         (snd (discover_pagination_mode base_url items1 sleep
                 (snd (fetch_html base_url w))))
         (page_urls_from base_url scheme 0 (S count)) w'.
Proof.
  apply run_gen_uncapped.
Qed.

Lemma generator_stops_at_first_empty_page_witness :
  let E := Fake.externals Fake.numbered_site in
  let w := Fake.world0 Fake.numbered_site in
  let resp := fun u => dict_get u Fake.numbered_site in
  let scheme := (PageMode, pystr_of_string "page", 0%Z, false) in
  @fixed_mapping E resp
  /\ @time_sleep E 0%Z = true
  /\ exists w',
       run_gen 4 Fake.base 0%Z 0 GenStart w
       = (Some ((0%Z, Fake.base, Fake.first_page_items)
                :: pages_from resp Fake.base scheme 0 2, Ok tt), w')
       /\ fetched_only
            (snd (discover_pagination_mode Fake.base Fake.first_page_items 0%Z
                    (snd (fetch_html Fake.base w))))
            (page_urls_from Fake.base scheme 0 3) w'.
Proof.
  intros E w resp scheme.
  assert (Hfix : @fixed_mapping E resp) by (intros n u; reflexivity).
  assert (Hsleep : @time_sleep E 0%Z = true) by reflexivity.
  split; [exact Hfix|]. split; [exact Hsleep|].
  apply (@generator_stops_at_first_empty_page E resp Fake.base Fake.first_page_listing
           Fake.first_page_items scheme 2 0%Z w 4 Hfix (fun _ => Hsleep)).
  - vm_compute. reflexivity.
  - vm_compute. reflexivity.
  - vm_compute. reflexivity.
  - intros i Hi. destruct i as [|[|i]]; [| |lia].
    + exists Fake.first_page_listing, Fake.first_page_items.
      split; [vm_compute; reflexivity|]. split; [vm_compute; reflexivity | discriminate].
    + exists Fake.second_page_listing, [Fake.item "3" "113-04-29" "U3" "T3"].
      split; [vm_compute; reflexivity|]. split; [vm_compute; reflexivity | discriminate].
  - exists []. split; vm_compute; reflexivity.
  - lia.
Defined.

(** X19. The pages of a run are numbered from 0 without a gap; the page 0
    has the base URL; every later page has the URL of its index under one
    scheme, and has records. *)
Theorem generator_pages_are_numbered (E : Externals) (base_url : pystr)
    (sleep : PyFloat) (max_pages : Z) (w : World) (fuel : nat) :
  match fst (run_gen fuel base_url sleep max_pages GenStart w) with
  | None => True
  | Some (pages, _) =>
      exists scheme,
        forall (i : nat) (page : Page),
          nth_error pages i = Some page ->
          fst page
          = (Z.of_nat i,
             match i with
             | O => base_url
             | S _ => page_url base_url scheme (Z.of_nat i)
             end)
          /\ (0 < i -> snd page <> [])
  end.
Proof.
  destruct fuel as [|fuel]; [exact I|].
  cbn [run_gen gen_next]. unfold bind, lift.
  destruct (fetch_html base_url w) as [[html|e] w1]; cbn [fst].
  - destruct (parse_list_page html) as [items1|e]; cbn [fst].
    + unfold ret.
      destruct (run_gen fuel base_url sleep max_pages (GenFirstYielded items1) w1)
        as [[[pages r]|] w2] eqn:Hrun; cbn [fst]; [|exact I].
      destruct fuel as [|fuel]; [discriminate|].
      destruct (Z.eq_dec max_pages 1) as [Hone | Hmany].
      * cbn [run_gen gen_next] in Hrun. rewrite (proj2 (Z.eqb_eq _ _) Hone) in Hrun.
        injection Hrun as <- _ _. exists (PageMode, [], 0%Z, false).
        intros [|[|i]] page Hi; try discriminate.
        injection Hi as <-. split; [reflexivity | lia].
      * pose proof (gen_next_first_yielded base_url sleep max_pages items1 w1 Hmany)
          as Hstep.
        destruct (discover_pagination_mode base_url items1 sleep w1)
          as [[scheme|e] w3].
        -- exists scheme. intros [|i] page Hi.
           ++ injection Hi as <-. split; [reflexivity | lia].
           ++ cbn [nth_error] in Hi.
              destruct (run_gen_turn_pages base_url sleep max_pages scheme (S fuel)
                          _ _ _ _ _ _ _ Hstep Hrun i page Hi) as [Hfst Hsnd].
              split; [|intros _; exact Hsnd]. rewrite Hfst.
              replace (0 + 1 + Z.of_nat i)%Z with (Z.of_nat (S i)) by lia. reflexivity.
        -- cbn [run_gen] in Hrun. rewrite Hstep in Hrun.
           injection Hrun as <- _ _. exists (PageMode, [], 0%Z, false).
           intros [|[|i]] page Hi; try discriminate.
           injection Hi as <-. split; [reflexivity | lia].
    + exists (PageMode, [], 0%Z, false). intros [|i] page Hi; discriminate.
  - exists (PageMode, [], 0%Z, false). intros [|i] page Hi; discriminate.
Qed.



(** ** The counters and the end of a run *)

Section Runs.
Context {E : Externals}.
Variables base_url out_dir : pystr.
Variable sleep : PyFloat.
Variable max_pages : Z.

Lemma main_loop_totals (fuel : nat) :
  forall (st : GenState) (t : Totals) (w : World) (exit : Exit) (t' : Totals),
    fst (main_loop fuel base_url sleep max_pages out_dir st t w) = Ok (Some (exit, t')) ->
    total_saved t <= total_seen t ->
    total_saved t' <= total_seen t'
    /\ (exit = StoppedOnExisting -> total_saved t' < total_seen t').
Proof.
  induction fuel as [|fuel IH]; intros st t w exit t'; cbn [main_loop]; [discriminate|].
  unfold bind at 1.
  destruct (gen_next base_url sleep max_pages st w) as [[[[[[n u] items]|] st']|e] w1].
  - unfold bind at 1.
    destruct (process_items_counts out_dir sleep items t w1)
      as [stop [t1 [w2 [Hrun [Hseen [Hsaved [Hle [_ Hstop]]]]]]]].
    rewrite Hrun. destruct stop.
    + cbn [fst ret]. intros [= <- <-] Ht. specialize (Hstop eq_refl).
      split; [lia | intros _; lia].
    + intros H Ht. apply (IH _ _ _ _ _ H). lia.
  - cbn [fst ret]. intros [= <- <-] Ht. split; [exact Ht | discriminate].
  - discriminate.
Qed.



End Runs.

(** X20. When a run ends, the number of documents saved is at most the
    number of records seen, and smaller when the run stopped at an existing
    target. *)
Theorem main_counts_saved_among_seen (E : Externals) (fuel : nat)
    (list_url out_dir : pystr) (sleep : PyFloat) (max_pages : Z) (w : World) :
  match fst (main fuel list_url out_dir sleep max_pages w) with
  | Ok (Some (exit, t)) =>
      total_saved t <= total_seen t
      /\ (exit = StoppedOnExisting -> total_saved t < total_seen t)
  | _ => True
  end.
Proof.
  destruct (fst (main fuel list_url out_dir sleep max_pages w)) as [[[exit t]|]|e] eqn:H;
    try exact I.
  unfold main in H. destruct (fs_makedirs out_dir); [|discriminate H].
  apply (main_loop_totals list_url out_dir sleep max_pages fuel _ _ _ _ _ H). cbn. lia.
Qed.


